(** * Ghost-bus detector: a shallow embedding of the backend and its properties

    The development follows the Python backend module by module:

    - [Geo] and [Detector]: [detector.py], class [GhostBusDetector];
    - [Api]: the read handlers of [main.py] and the write path as it acts on
      the detector;
    - [Fanout]: [websocket_manager.py], class [ConnectionManager];
    - [Storage]: [storage.py], class [RedisStorage];
    - [Ingest]: the handler [update_bus_position] of [main.py] with the
      storage and the connection manager.

    [Rules] and [Examples] hold the notions and the sample data of the
    statements; the lemmas and the properties of the specification follow.

    Numbers.  Python [float] values are read as real numbers: coordinates,
    timestamps and speeds live in [R], arithmetic is exact, and the values
    [nan] and [inf] are outside the model.  Functions of the [math] and
    [statistics] modules that raise on part of their domain are partial here
    ([option]), so that "does not raise" is a statement one proves.
    What is proved of [Geo._haversine_distance] and of its callers is proved
    of this exact arithmetic.  [GeoFloat] is the distance function in binary64
    arithmetic, with the functions of the C library as parameters: there the
    rounded argument of [math.asin] can exceed 1, and the function raises.

    Time.  [time.time()] is an input: every function that reads the clock
    takes the value read as an argument.

    Scheduling.  The coroutines run on one event loop; each handler and each
    method is modelled from its call to its return, without the interleaving
    of other coroutines at its [await]s. *)

From Stdlib Require Import Reals Lra Lia List Bool String.
From Stdlib Require PrimFloat.
From stdpp Require Import base option list gmap strings.

Open Scope R_scope.

(** * The program *)

(** ** Comparisons on floats, as booleans *)

Definition Rltb (x y : R) : bool := if Rlt_dec x y then true else false.
Definition Rleb (x y : R) : bool := if Rle_dec x y then true else false.

(** ** Exceptions

    A computation that may raise is an [option]: [None] stands for an
    exception that leaves the function. *)

Definition raise_bind {A B : Type} (m : option A) (k : A -> option B)
    : option B :=
  match m with
  | Some a => k a
  | None => None
  end.

Notation "x <- m ;; k" := (raise_bind m (fun x => k))
  (at level 100, m at next level, right associativity).

(** ** Geo math: [GhostBusDetector._haversine_distance] *)

Module Geo.

(** [math.radians] *)
Definition radians (x : R) : R := x * (PI / 180).

(** [math.sqrt] raises [ValueError] on a negative argument. *)
Definition math_sqrt (x : R) : option R :=
  if Rltb x 0 then None else Some (sqrt x).

(** [math.asin] raises [ValueError] outside [[-1, 1]]. *)
Definition math_asin (x : R) : option R :=
  if Rleb (-1) x && Rleb x 1 then Some (asin x) else None.

(** Earth's radius in meters *)
Definition R_earth : R := 6371000.

(** The quantity [a] of the source. *)
Definition haversine_a (lat1 lon1 lat2 lon2 : R) : R :=
  let dlat := radians (lat2 - lat1) in
  let dlon := radians (lon2 - lon1) in
  sin (dlat / 2) ^ 2
  + cos (radians lat1) * cos (radians lat2) * sin (dlon / 2) ^ 2.

(** The distance in exact arithmetic; [GeoFloat._haversine_distance] is the
    same function in binary64 arithmetic. *)
Definition _haversine_distance (lat1 lon1 lat2 lon2 : R) : option R :=
  r <- math_sqrt (haversine_a lat1 lon1 lat2 lon2);;
  s <- math_asin r;;
  Some (2 * R_earth * s).

(** The same distance with the total [sqrt] and [asin] of the real-number
    library; [haversine_distance_value] below shows that the source function
    always returns it. *)
Definition haversine_value (lat1 lon1 lat2 lon2 : R) : R :=
  2 * R_earth * asin (sqrt (haversine_a lat1 lon1 lat2 lon2)).

End Geo.

(** ** The detector: class [GhostBusDetector] of [detector.py] *)

Module Detector.

(** The dictionary [bus_data].  Every caller passes [BusUpdate.dict()], which
    has all the keys of the model class [BusUpdate] of [models.py]; the
    optional fields hold [None] when absent from the report. *)
Record BusUpdate : Type := mkBusUpdate {
  id : string;
  lat : R;
  lon : R;
  route_id : string;
  speed : option R;
  timestamp : R;
  bearing : option R;
  trip_id : option string
}.

(** The dictionary [position_entry] of [_store_position_history]. *)
Record position_entry : Type := mkEntry {
  e_lat : R;
  e_lon : R;
  e_timestamp : R;
  e_speed : option R
}.

(** The attributes that [__init__] sets and no method reassigns. *)
Definition stale_threshold : R := 120.
Definition stationary_threshold : R := 60.
Definition max_history_length : nat := 60.

(** The mutable attributes: two dictionaries keyed by bus id. *)
Record GhostBusDetector : Type := mkDetector {
  position_history : gmap string (list position_entry);
  speed_history : gmap string (list R)
}.

(** [GhostBusDetector()] *)
Definition init : GhostBusDetector := mkDetector ∅ ∅.

(** The slice [l[-n:]] for a positive [n]: the last [n] elements, or all of
    [l] when it is shorter. *)
Definition last_n {A : Type} (n : nat) (l : list A) : list A :=
  drop (length l - n) l.

(** [l.append(x)] followed by the trimming
    [if len(l) > max_history_length: l = l[-max_history_length:]]. *)
Definition append_trim {A : Type} (l : list A) (x : A) : list A :=
  let l1 := l ++ [x] in
  if (max_history_length <? length l1)%nat
  then last_n max_history_length l1
  else l1.

Definition entry_of (bus_data : BusUpdate) : position_entry :=
  {| e_lat := lat bus_data;
     e_lon := lon bus_data;
     e_timestamp := timestamp bus_data;
     e_speed := speed bus_data |}.

Definition _store_position_history
    (self : GhostBusDetector) (bus_id : string) (bus_data : BusUpdate)
    : GhostBusDetector :=
  let history := default [] (position_history self !! bus_id) in
  {| position_history :=
       <[bus_id := append_trim history (entry_of bus_data)]>
         (position_history self);
     speed_history := speed_history self |}.

(** The loop [for i in range(1, len(recent_positions))] with its accumulator
    [total_distance]. *)
Fixpoint path_distance (total_distance : R) (positions : list position_entry)
    : option R :=
  match positions with
  | p :: ((q :: _) as rest) =>
      distance <-
        Geo._haversine_distance (e_lat p) (e_lon p) (e_lat q) (e_lon q);;
      path_distance (total_distance + distance) rest
  | _ => Some total_distance
  end.

Definition _is_stationary_at_non_stop
    (self : GhostBusDetector) (bus_id : string) (bus_data : BusUpdate)
    : option bool :=
  match position_history self !! bus_id with
  | None => Some false
  | Some history =>
      if (length history <? 3)%nat then Some false else
      let recent_positions := last_n 5 history in
      if (length recent_positions <? 3)%nat then Some false else
      total_distance <- path_distance 0 recent_positions;;
      newest <- last recent_positions;;
      oldest <- head recent_positions;;
      let time_span := e_timestamp newest - e_timestamp oldest in
      if Rltb total_distance 20 && Rltb stationary_threshold time_span
      then Some true
      else Some false
  end.

(** [statistics.mean] raises [StatisticsError] on an empty list. *)
Definition mean (data : list R) : option R :=
  match data with
  | [] => None
  | _ => Some (fold_right Rplus 0 data / INR (length data))
  end.

Definition _detect_speed_anomaly
    (self : GhostBusDetector) (bus_id : string) (current_speed : option R)
    : option (GhostBusDetector * option string) :=
  match current_speed with
  | None => Some (self, None)
  | Some current_speed =>
      let speeds :=
        append_trim (default [] (speed_history self !! bus_id)) current_speed in
      let self' :=
        {| position_history := position_history self;
           speed_history := <[bus_id := speeds]> (speed_history self) |} in
      if (length speeds <? 5)%nat then Some (self', None) else
      avg_speed <- mean speeds;;
      if Rltb 0 avg_speed && Rltb (avg_speed * 3) current_speed
      then Some (self', Some "speed_spike"%string)
      else if Rltb 10 avg_speed && Rltb current_speed (avg_speed * 0.3)
      then Some (self', Some "speed_drop"%string)
      else Some (self', None)
  end.

Definition _is_off_route (bus_data : BusUpdate) : bool :=
  negb (Rleb 37.0 (lat bus_data) && Rleb (lat bus_data) 41.0
        && Rleb (-109.0) (lon bus_data) && Rleb (lon bus_data) (-102.0)).

Definition critical_anomalies : gset string :=
  {[ "stale_data"%string; "off_route"%string ]}.
Definition warning_anomalies : gset string :=
  {[ "stationary_non_stop"%string; "speed_spike"%string; "speed_drop"%string ]}.

(** [any(anomaly in s for anomaly in anomaly_types)] *)
Definition any_in (s : gset string) (anomaly_types : list string) : bool :=
  existsb (fun anomaly => bool_decide (anomaly ∈ s)) anomaly_types.

Definition _calculate_severity (anomaly_types : list string) : string :=
  match anomaly_types with
  | [] => "info"
  | _ =>
      if any_in critical_anomalies anomaly_types then "critical"
      else if any_in warning_anomalies anomaly_types then "warning"
      else "info"
  end%string.

(** The truth value of a string: [if speed_anomaly:] *)
Definition truthy (s : string) : bool := negb (String.eqb s "").

(** [detect_anomalies]; [current_time] is the value of [time.time()] read at
    the top of the method.  The result pairs the detector after the call
    with the returned triple. *)
Definition detect_anomalies
    (self : GhostBusDetector) (current_time : R) (bus_data : BusUpdate)
    : option (GhostBusDetector * (bool * list string * string)) :=
  let bus_id := id bus_data in
  let anomaly_types := [] in
  let last_update := timestamp bus_data in
  let anomaly_types :=
    if Rltb stale_threshold (current_time - last_update)
    then anomaly_types ++ ["stale_data"%string]
    else anomaly_types in
  let self := _store_position_history self bus_id bus_data in
  stationary <- _is_stationary_at_non_stop self bus_id bus_data;;
  let anomaly_types :=
    if stationary then anomaly_types ++ ["stationary_non_stop"%string]
    else anomaly_types in
  checked <- _detect_speed_anomaly self bus_id (speed bus_data);;
  let (self, speed_anomaly) := checked in
  let anomaly_types :=
    match speed_anomaly with
    | Some tag => if truthy tag then anomaly_types ++ [tag] else anomaly_types
    | None => anomaly_types
    end in
  let anomaly_types :=
    if _is_off_route bus_data then anomaly_types ++ ["off_route"%string]
    else anomaly_types in
  let is_ghost := (0 <? length anomaly_types)%nat in
  let severity := _calculate_severity anomaly_types in
  Some (self, (is_ghost, anomaly_types, severity)).

End Detector.

(** ** The handlers of [main.py] *)

Module Api.
Import Detector.

(** The dictionary that a handler returns for one bus: [bus.dict()] updated
    with the result of the detection. *)
Record BusStatus : Type := mkBusStatus {
  bus : BusUpdate;
  is_ghost : bool;
  anomaly_types : list string;
  severity : string;
  status : string
}.

Definition bus_status (bus : BusUpdate) (result : bool * list string * string)
    : BusStatus :=
  let '(is_ghost, anomaly_types, severity) := result in
  {| bus := bus;
     is_ghost := is_ghost;
     anomaly_types := anomaly_types;
     severity := severity;
     status := if is_ghost then "ghost"%string else "active"%string |}.

(** The module-level state that the handlers share: the dictionary
    [active_buses], in insertion order, and the [detector]. *)
Record App : Type := mkApp {
  active_buses : list (string * BusUpdate);
  detector : GhostBusDetector
}.

(** [active_buses[bus_id]], [None] when the key is absent. *)
Fixpoint dict_get (bus_id : string) (items : list (string * BusUpdate))
    : option BusUpdate :=
  match items with
  | [] => None
  | (k, v) :: rest => if String.eqb k bus_id then Some v else dict_get bus_id rest
  end.

(** [active_buses[bus_id] = update]: a present key keeps its place. *)
Fixpoint dict_set (bus_id : string) (update : BusUpdate)
    (items : list (string * BusUpdate)) : list (string * BusUpdate) :=
  match items with
  | [] => [(bus_id, update)]
  | (k, v) :: rest =>
      if String.eqb k bus_id then (k, update) :: rest
      else (k, v) :: dict_set bus_id update rest
  end.






(** [POST /buses/{bus_id}/update], as it acts on [active_buses] and on the
    detector.  Its calls to the storage and to the connection manager touch
    neither; they are in [Storage] and [Fanout]. *)
Definition update_bus_position (current_time : R) (app : App)
    (bus_id : string) (update : BusUpdate) : option (App * BusStatus) :=
  let buses := dict_set bus_id update (active_buses app) in
  checked <- detect_anomalies (detector app) current_time update;;
  let (det, result) := checked in
  Some ({| active_buses := buses; detector := det |},
        bus_status update result).


End Api.

(** ** The connection manager: class [ConnectionManager] of
    [websocket_manager.py] *)

Module Fanout.
Section Manager.

(** The connections are compared by identity; [Message] is what is sent. *)
Context {WebSocket : Type} `{EqDecision WebSocket} {Message : Type}.

(** [send_json c m] tells whether [await c.send_json(m)] returns ([true]) or
    raises ([false]). *)
Variable send_json : WebSocket -> Message -> bool.

(** [l.remove(x)] removes the first occurrence of [x] and raises
    [ValueError] when there is none. *)
Fixpoint remove (x : WebSocket) (l : list WebSocket) : option (list WebSocket) :=
  match l with
  | [] => None
  | y :: rest =>
      if decide (x = y) then Some rest
      else (rest' <- remove x rest;; Some (y :: rest'))
  end.

(** [connect]: the connection is accepted and appended. *)
Definition connect (active_connections : list WebSocket) (websocket : WebSocket)
    : list WebSocket :=
  active_connections ++ [websocket].

Definition disconnect (active_connections : list WebSocket)
    (websocket : WebSocket) : option (list WebSocket) :=
  if decide (websocket ∈ active_connections)
  then remove websocket active_connections
  else Some active_connections.

(** The first loop of [broadcast]: the connections whose send raised, and
    the connections that received the message, both in order. *)
Fixpoint send_loop (message : Message) (connections : list WebSocket)
    (disconnected delivered : list WebSocket)
    : list WebSocket * list WebSocket :=
  match connections with
  | [] => (disconnected, delivered)
  | connection :: rest =>
      if send_json connection message
      then send_loop message rest disconnected (delivered ++ [connection])
      else send_loop message rest (disconnected ++ [connection]) delivered
  end.

(** The second loop of [broadcast]. *)
Fixpoint disconnect_loop (disconnected : list WebSocket)
    (active_connections : list WebSocket) : option (list WebSocket) :=
  match disconnected with
  | [] => Some active_connections
  | connection :: rest =>
      active_connections <- disconnect active_connections connection;;
      disconnect_loop rest active_connections
  end.

(** [broadcast]: the registry after the call, and the connections that
    received the message. *)
Definition broadcast (active_connections : list WebSocket) (message : Message)
    : option (list WebSocket * list WebSocket) :=
  match active_connections with
  | [] => Some ([], [])
  | _ =>
      let (disconnected, delivered) :=
        send_loop message active_connections [] [] in
      active_connections <- disconnect_loop disconnected active_connections;;
      Some (active_connections, delivered)
  end.

End Manager.
End Fanout.

(** ** The durable store: class [RedisStorage] of [storage.py] *)

Module Storage.

(** The exceptions that the modelled calls raise; all are subclasses of
    [Exception]. *)
Inductive exn : Type :=
  | ConnectionError
  | ValueError
  | TypeError
  | JSONDecodeError.

Inductive outcome (A : Type) : Type :=
  | Returned (a : A)
  | Raised (e : exn).
Arguments Returned {A} a.
Arguments Raised {A} e.

(** A value of a [bus_data] dictionary. *)
Inductive value : Type :=
  | VStr (s : string)
  | VFloat (x : R).

(** A dictionary with the [None] values that [BusUpdate.dict()] may hold. *)
Definition Dict : Type := list (string * option value).

(** The dictionary that [get_bus_position] builds. *)
Record StoredBus : Type := mkStoredBus {
  sb_id : option string;
  sb_lat : R;
  sb_lon : R;
  sb_route_id : option string;
  sb_speed : option R;
  sb_timestamp : R;
  sb_bearing : option R
}.

(** An awaited computation against a Redis server in state [Server]: it
    returns or raises, and leaves the server in a new state. *)
Definition Task (Server A : Type) : Type := Server -> outcome A * Server.

(** The Redis client, as the methods that [RedisStorage] calls.  Any of them
    may raise, in any server state. *)
Class Redis (Server : Type) : Type := {
  from_url : string -> outcome unit;
  ping : Task Server unit;
  hset : string -> string -> string -> Task Server unit;
  hset_mapping : string -> gmap string string -> Task Server unit;
  expire : string -> Z -> Task Server unit;
  lpush : string -> string -> Task Server unit;
  ltrim : string -> Z -> Z -> Task Server unit;
  hgetall : string -> Task Server (gmap string string);
  keys : string -> Task Server (list string);
  lrange : string -> Z -> Z -> Task Server (list string);
  publish : string -> string -> Task Server unit
}.

(** The conversions of the Python library that the class relies on. *)
Class Codec (Json : Type) : Type := {
  str_float : R -> string;
  float_of_str : string -> option R;   (* [float(s)]; [None]: ValueError *)
  json_dumps : Dict -> outcome string;
  json_loads : string -> outcome Json
}.

Section Operations.
Context {Server Json : Type} `{Redis Server} `{Codec Json}.

Definition ret {A : Type} (a : A) : Task Server A :=
  fun server => (Returned a, server).

Definition bind {A B : Type} (m : Task Server A) (k : A -> Task Server B)
    : Task Server B :=
  fun server =>
    match m server with
    | (Returned a, server') => k a server'
    | (Raised e, server') => (Raised e, server')
    end.

(** A call that does not touch the server. *)
Definition lift {A : Type} (o : outcome A) : Task Server A :=
  fun server => (o, server).

(** [try: body  except Exception as e: handler] *)
Definition try_except {A : Type} (body : Task Server A)
    (handler : exn -> Task Server A) : Task Server A :=
  fun server =>
    match body server with
    | (Returned a, server') => (Returned a, server')
    | (Raised e, server') => handler e server'
    end.

Notation "x <~ m ;; k" := (bind m (fun x => k))
  (at level 100, m at next level, right associativity).

(** The state of a [RedisStorage]: [redis] is the client, named by its URL,
    or [None]. *)
Record RedisStorage : Type := mkStorage {
  redis_url : string;
  redis : option string
}.

(** [logger.error(...)] *)
Definition log_error {A : Type} (a : A) : exn -> Task Server A :=
  fun _ => ret a.

Definition connect (self : RedisStorage) : Task Server RedisStorage :=
  try_except
    (_ <~ lift (from_url (redis_url self));;
     _ <~ ping;;
     ret {| redis_url := redis_url self; redis := Some (redis_url self) |})
    (fun _ => ret {| redis_url := redis_url self; redis := None |}).

(** [str(value)] *)
Definition str (v : value) : string :=
  match v with
  | VStr s => s
  | VFloat x => str_float x
  end.

(** [{k: v for k, v in d.items() if v is not None}] *)
Definition not_none (d : Dict) : list (string * value) :=
  omap (fun kv => match kv.2 with Some v => Some (kv.1, v) | None => None end) d.

(** [d.get(k)] *)
Fixpoint dict_get (k : string) (d : Dict) : option value :=
  match d with
  | [] => None
  | (k', v) :: rest => if String.eqb k' k then v else dict_get k rest
  end.

Fixpoint hset_each (key : string) (fields : list (string * value))
    : Task Server unit :=
  match fields with
  | [] => ret tt
  | (field, v) :: rest =>
      _ <~ hset key field (str v);;
      hset_each key rest
  end.

Definition store_bus_position_body (bus_id : string) (bus_data : Dict)
    : Task Server unit :=
  let filtered_data := not_none bus_data in
  let key := ("bus:" ++ bus_id)%string in
  _ <~ match filtered_data with
       | [] => ret tt
       | _ => _ <~ hset_each key filtered_data;; expire key 300
       end;;
  let history_key := ("bus:" ++ bus_id ++ ":history")%string in
  let position_entry : Dict :=
    [("lat"%string, dict_get "lat" bus_data);
     ("lon"%string, dict_get "lon" bus_data);
     ("timestamp"%string, dict_get "timestamp" bus_data);
     ("speed"%string, dict_get "speed" bus_data)] in
  match not_none position_entry with
  | [] => ret tt
  | entry =>
      payload <~ lift (json_dumps (prod_map Datatypes.id Some <$> entry));;
      _ <~ lpush history_key payload;;
      _ <~ ltrim history_key 0 59;;
      expire history_key 3600
  end.

Definition store_bus_position (self : RedisStorage) (bus_id : string)
    (bus_data : Dict) : Task Server unit :=
  match redis self with
  | None => ret tt
  | Some _ =>
      try_except (store_bus_position_body bus_id bus_data) (log_error tt)
  end.

(** [float(data.get(k, 0))] *)
Definition float_field (data : gmap string string) (k : string)
    : outcome R :=
  match data !! k with
  | None => Returned 0
  | Some s =>
      match float_of_str s with
      | Some x => Returned x
      | None => Raised ValueError
      end
  end.

(** [float(data.get(k, 0)) if data.get(k) else None] *)
Definition optional_float_field (data : gmap string string) (k : string)
    : outcome (option R) :=
  match data !! k with
  | None => Returned None
  | Some s =>
      if String.eqb s "" then Returned None
      else match float_of_str s with
           | Some x => Returned (Some x)
           | None => Raised ValueError
           end
  end.

(** The dictionary display of [get_bus_position]. *)
Definition stored_bus (data : gmap string string) : Task Server StoredBus :=
  lat <~ lift (float_field data "lat");;
  lon <~ lift (float_field data "lon");;
  speed <~ lift (optional_float_field data "speed");;
  timestamp <~ lift (float_field data "timestamp");;
  bearing <~ lift (optional_float_field data "bearing");;
  ret {| sb_id := data !! "id"%string; sb_lat := lat; sb_lon := lon;
         sb_route_id := data !! "route_id"%string; sb_speed := speed;
         sb_timestamp := timestamp; sb_bearing := bearing |}.

(** [if data:] *)
Definition nonempty (data : gmap string string) : bool :=
  bool_decide (data <> ∅).

Definition get_bus_position_body (bus_id : string)
    : Task Server (option StoredBus) :=
  let key := ("bus:" ++ bus_id)%string in
  data <~ hgetall key;;
  if nonempty data
  then (b <~ stored_bus data;; ret (Some b))
  else ret None.

Definition get_bus_position (self : RedisStorage) (bus_id : string)
    : Task Server (option StoredBus) :=
  match redis self with
  | None => ret None
  | Some _ => try_except (get_bus_position_body bus_id) (log_error None)
  end.





(** The loop of [get_bus_history]: an entry that does not parse is skipped;
    any other exception leaves the loop. *)
Fixpoint history_loop (history_data : list string) (history : list Json)
    : Task Server (list Json) :=
  match history_data with
  | [] => ret history
  | entry :: rest =>
      match json_loads entry with
      | Returned position => history_loop rest (history ++ [position])
      | Raised JSONDecodeError => history_loop rest history
      | Raised e => lift (Raised e)
      end
  end.

Definition get_bus_history_body (bus_id : string) (limit : Z)
    : Task Server (list Json) :=
  let history_key := ("bus:" ++ bus_id ++ ":history")%string in
  history_data <~ lrange history_key 0 (limit - 1);;
  history_loop history_data [].

Definition get_bus_history (self : RedisStorage) (bus_id : string) (limit : Z)
    : Task Server (list Json) :=
  match redis self with
  | None => ret []
  | Some _ => try_except (get_bus_history_body bus_id limit) (log_error [])
  end.











End Operations.
End Storage.

(** ** [POST /buses/{bus_id}/update] with its collaborators *)

Module Ingest.
Import Detector.

(** [update.dict()] *)
Definition dict_of (update : BusUpdate) : Storage.Dict :=
  [("id"%string, Some (Storage.VStr (id update)));
   ("lat"%string, Some (Storage.VFloat (lat update)));
   ("lon"%string, Some (Storage.VFloat (lon update)));
   ("route_id"%string, Some (Storage.VStr (route_id update)));
   ("speed"%string, Storage.VFloat <$> speed update);
   ("timestamp"%string, Some (Storage.VFloat (timestamp update)));
   ("bearing"%string, Storage.VFloat <$> bearing update);
   ("trip_id"%string, Storage.VStr <$> trip_id update)].

Section Handler.
Context {Server Json : Type} `{Storage.Redis Server} `{Storage.Codec Json}.
Context {WebSocket : Type} `{EqDecision WebSocket}.

(** The handler [update_bus_position] of [main.py]: the report is stored in
    [active_buses] and in Redis, classified, and broadcast.  The result is
    the application state, the registry of connections, and the connections
    that received the update. *)
Definition update_bus_position
    (storage : Storage.RedisStorage)
    (send_json : WebSocket -> Api.BusStatus -> bool)
    (current_time : R) (app : Api.App) (connections : list WebSocket)
    (bus_id : string) (update : BusUpdate)
    : Storage.Task Server
        (option (Api.App * Api.BusStatus * list WebSocket * list WebSocket)) :=
  Storage.bind (Storage.store_bus_position storage bus_id (dict_of update))
    (fun _ =>
       Storage.ret
         (classified <- Api.update_bus_position current_time app bus_id update;;
          let (app, bus_data) := classified in
          sent <- Fanout.broadcast send_json connections bus_data;;
          let (connections, delivered) := sent in
          Some (app, bus_data, connections, delivered))).

End Handler.
End Ingest.

(** ** Statistics of a bus: [GhostBusDetector.get_bus_statistics] *)

Module Statistics.
Import Detector.

(** The dictionary [stats]. *)
Record BusStatistics : Type := mkStatistics {
  position_history_count : nat;
  speed_history_count : nat;
  avg_speed : option R;
  total_distance : R
}.

Definition get_bus_statistics (self : GhostBusDetector) (bus_id : string)
    : option BusStatistics :=
  let position_history_count :=
    length (default [] (position_history self !! bus_id)) in
  let speed_history_count :=
    length (default [] (speed_history self !! bus_id)) in
  avg_speed <-
    match speed_history self !! bus_id with
    | Some ((_ :: _) as speeds) => (m <- mean speeds;; Some (Some m))
    | _ => Some None
    end;;
  total_distance <-
    match position_history self !! bus_id with
    | Some positions =>
        if (1 <? length positions)%nat then path_distance 0 positions
        else Some 0
    | None => Some 0
    end;;
  Some {| position_history_count := position_history_count;
          speed_history_count := speed_history_count;
          avg_speed := avg_speed;
          total_distance := total_distance |}.

End Statistics.

(** ** The other methods of [ConnectionManager] *)

Module Messaging.
Section Manager.
Context {WebSocket : Type} `{EqDecision WebSocket} {Data : Type}.

(** The messages that the manager builds: [{"type": "bus_update", "data":
    bus_data}] and [{"type": "snapshot", "data": buses_data}]. *)
Inductive message : Type :=
  | bus_update (data : Data)
  | snapshot (data : list Data).

Variable send_json : WebSocket -> message -> bool.

(** [send_personal_message]: the registry after the call, and whether the
    message was delivered. *)
Definition send_personal_message (active_connections : list WebSocket)
    (m : message) (websocket : WebSocket)
    : option (list WebSocket * bool) :=
  if send_json websocket m
  then Some (active_connections, true)
  else (active_connections <- Fanout.disconnect active_connections websocket;;
        Some (active_connections, false)).




End Manager.
End Messaging.

(** ** The loader of the GTFS files: [load_all], [_load_file] and [is_loaded]
    of [gtfs_loader.py] *)

Module Gtfs.

Inductive encoding : Type := utf_8 | latin_1.

(** What [pd.read_csv] does with a file: it returns a frame, raises
    [UnicodeDecodeError], or raises another exception. *)
Inductive read_outcome (DataFrame : Type) : Type :=
  | Read (df : DataFrame)
  | UnicodeDecodeError
  | ReadError.
Arguments Read {DataFrame} df.
Arguments UnicodeDecodeError {DataFrame}.
Arguments ReadError {DataFrame}.

(** The files and the frames, as the loader uses them: [exists_ dir name] is
    [(dir / name).exists()], [empty_frame] is [pd.DataFrame()], [empty df] is
    [df.empty]. *)
Class Files (DataFrame : Type) : Type := {
  exists_ : string -> string -> bool;
  read_csv : string -> string -> encoding -> read_outcome DataFrame;
  empty_frame : DataFrame;
  empty : DataFrame -> bool
}.

(** The exceptions that leave [_load_file]. *)
Inductive load_error : Type :=
  | FileNotFoundError
  | LoadError.

Section Loader.
Context {DataFrame : Type} `{Files DataFrame}.

Record GTFSLoader : Type := mkLoader {
  gtfs_path : string;
  routes : DataFrame;
  stops : DataFrame;
  trips : DataFrame;
  stop_times : DataFrame;
  shapes : DataFrame;
  calendar : DataFrame;
  calendar_dates : DataFrame;
  agency : DataFrame;
  fare_attributes : DataFrame;
  fare_rules : DataFrame
}.

(** [GTFSLoader(gtfs_path)] *)
Definition init (gtfs_path : string) : GTFSLoader :=
  mkLoader gtfs_path empty_frame empty_frame empty_frame empty_frame
           empty_frame empty_frame empty_frame empty_frame empty_frame
           empty_frame.

Definition _load_file (self : GTFSLoader) (filename : string)
    (required : bool) : load_error + DataFrame :=
  if negb (exists_ (gtfs_path self) filename)
  then (if required then inl FileNotFoundError else inr empty_frame)
  else
    let read :=
      match read_csv (gtfs_path self) filename utf_8 with
      | UnicodeDecodeError => read_csv (gtfs_path self) filename latin_1
      | r => r
      end in
    match read with
    | Read df => inr df
    | _ => if required then inl LoadError else inr empty_frame
    end.

(** [self.routes = df] *)
Definition set_routes (self : GTFSLoader) (df : DataFrame)
    : GTFSLoader :=
  mkLoader (gtfs_path self)
    df (stops self) (trips self) (stop_times self) (shapes self)
    (calendar self) (calendar_dates self) (agency self)
    (fare_attributes self) (fare_rules self).

(** [self.stops = df] *)
Definition set_stops (self : GTFSLoader) (df : DataFrame)
    : GTFSLoader :=
  mkLoader (gtfs_path self)
    (routes self) df (trips self) (stop_times self) (shapes self)
    (calendar self) (calendar_dates self) (agency self)
    (fare_attributes self) (fare_rules self).

(** [self.trips = df] *)
Definition set_trips (self : GTFSLoader) (df : DataFrame)
    : GTFSLoader :=
  mkLoader (gtfs_path self)
    (routes self) (stops self) df (stop_times self) (shapes self)
    (calendar self) (calendar_dates self) (agency self)
    (fare_attributes self) (fare_rules self).

(** [self.stop_times = df] *)
Definition set_stop_times (self : GTFSLoader) (df : DataFrame)
    : GTFSLoader :=
  mkLoader (gtfs_path self)
    (routes self) (stops self) (trips self) df (shapes self)
    (calendar self) (calendar_dates self) (agency self)
    (fare_attributes self) (fare_rules self).

(** [self.shapes = df] *)
Definition set_shapes (self : GTFSLoader) (df : DataFrame)
    : GTFSLoader :=
  mkLoader (gtfs_path self)
    (routes self) (stops self) (trips self) (stop_times self) df
    (calendar self) (calendar_dates self) (agency self)
    (fare_attributes self) (fare_rules self).

(** [self.calendar = df] *)
Definition set_calendar (self : GTFSLoader) (df : DataFrame)
    : GTFSLoader :=
  mkLoader (gtfs_path self)
    (routes self) (stops self) (trips self) (stop_times self)
    (shapes self) df (calendar_dates self) (agency self)
    (fare_attributes self) (fare_rules self).

(** [self.calendar_dates = df] *)
Definition set_calendar_dates (self : GTFSLoader) (df : DataFrame)
    : GTFSLoader :=
  mkLoader (gtfs_path self)
    (routes self) (stops self) (trips self) (stop_times self)
    (shapes self) (calendar self) df (agency self) (fare_attributes self)
    (fare_rules self).

(** [self.agency = df] *)
Definition set_agency (self : GTFSLoader) (df : DataFrame)
    : GTFSLoader :=
  mkLoader (gtfs_path self)
    (routes self) (stops self) (trips self) (stop_times self)
    (shapes self) (calendar self) (calendar_dates self) df
    (fare_attributes self) (fare_rules self).

(** [self.fare_attributes = df] *)
Definition set_fare_attributes (self : GTFSLoader) (df : DataFrame)
    : GTFSLoader :=
  mkLoader (gtfs_path self)
    (routes self) (stops self) (trips self) (stop_times self)
    (shapes self) (calendar self) (calendar_dates self) (agency self) df
    (fare_rules self).

(** [self.fare_rules = df] *)
Definition set_fare_rules (self : GTFSLoader) (df : DataFrame)
    : GTFSLoader :=
  mkLoader (gtfs_path self)
    (routes self) (stops self) (trips self) (stop_times self)
    (shapes self) (calendar self) (calendar_dates self) (agency self)
    (fare_attributes self) df.

(** [load_all]: the loader after the call and the boolean returned.  An
    exception of [_load_file] leaves the [try] at the assignment that
    raised; the assignments before it stay. *)
Definition load_all (self : GTFSLoader) : GTFSLoader * bool :=
  match _load_file self "routes.txt" true with
  | inl _ => (self, false)
  | inr df =>
  let self := set_routes self df in
  match _load_file self "stops.txt" true with
  | inl _ => (self, false)
  | inr df =>
  let self := set_stops self df in
  match _load_file self "trips.txt" true with
  | inl _ => (self, false)
  | inr df =>
  let self := set_trips self df in
  match _load_file self "stop_times.txt" true with
  | inl _ => (self, false)
  | inr df =>
  let self := set_stop_times self df in
  match _load_file self "shapes.txt" false with
  | inl _ => (self, false)
  | inr df =>
  let self := set_shapes self df in
  match _load_file self "calendar.txt" false with
  | inl _ => (self, false)
  | inr df =>
  let self := set_calendar self df in
  match _load_file self "calendar_dates.txt" false with
  | inl _ => (self, false)
  | inr df =>
  let self := set_calendar_dates self df in
  match _load_file self "agency.txt" false with
  | inl _ => (self, false)
  | inr df =>
  let self := set_agency self df in
  match _load_file self "fare_attributes.txt" false with
  | inl _ => (self, false)
  | inr df =>
  let self := set_fare_attributes self df in
  match _load_file self "fare_rules.txt" false with
  | inl _ => (self, false)
  | inr df =>
  let self := set_fare_rules self df in
  (self, true)
  end end end end end end end end end end.

Definition is_loaded (self : GTFSLoader) : bool :=
  negb (empty (routes self) || empty (stops self) || empty (trips self)
        || empty (stop_times self)).

End Loader.
End Gtfs.

(** ** The WebSocket endpoint: [websocket_endpoint] of [main.py] *)

Module Endpoint.
Section Handler.
Context {WebSocket : Type} `{EqDecision WebSocket}.





End Handler.
End Endpoint.

(** ** Geo math in binary64: [GhostBusDetector._haversine_distance] as the
    interpreter runs it *)

Module GeoFloat.
Import PrimFloat.
Local Open Scope float_scope.

(** The functions of the C library that the [math] module and the float
    power call.  Their values are not fixed by IEEE 754; what is proved holds
    for the values that the hypotheses of a theorem name. *)
Class Libm : Type := {
  sin : float -> float;
  cos : float -> float;
  pow : float -> float -> float;
  asin : float -> float
}.

Section Code.
Context `{Libm}.

(** [math.radians]: the product with the double nearest to pi / 180,
    0.017453292519943295. *)
Definition degToRad : float := 0x1.1df46a2529d39p-6.
Definition radians (x : float) : float := x * degToRad.

(** [math.sqrt] raises [ValueError] on a negative argument. *)
Definition math_sqrt (x : float) : option float :=
  if x <? 0 then None else Some (sqrt x).

(** [math.asin] raises [ValueError] outside [[-1, 1]]. *)
Definition math_asin (x : float) : option float :=
  if (x <? -1) || (1 <? x) then None else Some (asin x).

(** The quantity [a] of the source; the subtractions, the divisions, the
    products and the sum are those of binary64. *)
Definition haversine_a (lat1 lon1 lat2 lon2 : float) : float :=
  let dlat := radians (lat2 - lat1) in
  let dlon := radians (lon2 - lon1) in
  pow (sin (dlat / 2)) 2
  + cos (radians lat1) * cos (radians lat2) * pow (sin (dlon / 2)) 2.

Definition _haversine_distance (lat1 lon1 lat2 lon2 : float) : option float :=
  r <- math_sqrt (haversine_a lat1 lon1 lat2 lon2);;
  s <- math_asin r;;
  Some (2 * 6371000 * s).

End Code.
End GeoFloat.

(** * Notions used in the statements *)

(** ** What the rules compute *)

Module Rules.
Import Detector.

(** Cumulative path distance: the sum of the haversine distances of the
    consecutive pairs. *)
Fixpoint cumulative_distance (samples : list position_entry) : R :=
  match samples with
  | p :: ((q :: _) as rest) =>
      Geo.haversine_value (e_lat p) (e_lon p) (e_lat q) (e_lon q)
      + cumulative_distance rest
  | _ => 0
  end.

(** Time between the first and the last sample. *)
Definition time_span (samples : list position_entry) : R :=
  match head samples, last samples with
  | Some oldest, Some newest => e_timestamp newest - e_timestamp oldest
  | _, _ => 0
  end.

(** The condition of the stationary rule on a window. *)
Definition stationary_condition (window : list position_entry) : Prop :=
  (3 <= length window)%nat
  /\ cumulative_distance (last_n 5 window) < 20
  /\ time_span (last_n 5 window) > 60.

(** Mean of a sample list, as a number. *)
Definition mean_value (data : list R) : R :=
  fold_right Rplus 0 data / INR (length data).

(** The condition of the speed-spike rule for speed [c] on the window [w]
    that already holds [c]. *)
Definition spike_condition (w : list R) (c : R) : Prop :=
  (5 <= length w)%nat /\ mean_value w > 0 /\ c > 3 * mean_value w.

Definition drop_condition (w : list R) (c : R) : Prop :=
  (5 <= length w)%nat /\ mean_value w > 10 /\ c < 0.3 * mean_value w.

(** A tag list meets a tag set. *)
Definition intersects (anomaly_types : list string) (s : gset string) : Prop :=
  exists tag, tag ∈ anomaly_types /\ tag ∈ s.

(** The position window of a vehicle; empty for a vehicle never seen. *)
Definition window (self : GhostBusDetector) (bus_id : string)
    : list position_entry :=
  default [] (position_history self !! bus_id).

(** A sequence of insertions into the position history. *)
Definition record_all (self : GhostBusDetector) (reports : list BusUpdate)
    : GhostBusDetector :=
  foldl (fun d r => _store_position_history d (id r) r) self reports.

(** The samples that a sequence of reports holds for one vehicle, in order
    of arrival. *)
Definition samples_of (bus_id : string) (reports : list BusUpdate)
    : list position_entry :=
  entry_of <$> filter (fun r => id r = bus_id) reports.

(** The tags of one evaluation, from the outcome of each rule. *)
Definition tags_of (stale stationary : bool) (speed_anomaly : option string)
    (off_route : bool) : list string :=
  (if stale then ["stale_data"%string] else [])
  ++ (if stationary then ["stationary_non_stop"%string] else [])
  ++ (match speed_anomaly with Some tag => [tag] | None => [] end)
  ++ (if off_route then ["off_route"%string] else []).

(** The detector after the speed rule has recorded [current_speed]. *)
Definition record_speed (self : GhostBusDetector) (bus_id : string)
    (current_speed : option R) : GhostBusDetector :=
  match current_speed with
  | None => self
  | Some c =>
      {| position_history := position_history self;
         speed_history :=
           <[bus_id := append_trim (default [] (speed_history self !! bus_id)) c]>
             (speed_history self) |}
  end.

(** The speed window that the rule examines for speed [c]. *)
Definition speed_window (self : GhostBusDetector) (bus_id : string) (c : R)
    : list R :=
  append_trim (default [] (speed_history self !! bus_id)) c.

(** The position window of the report's vehicle once the report is stored. *)
Definition window_after (self : GhostBusDetector) (bus_data : BusUpdate)
    : list position_entry :=
  append_trim (default [] (position_history self !! id bus_data))
              (entry_of bus_data).

(** The detector once [detect_anomalies] has run on a report. *)
Definition detector_after (self : GhostBusDetector) (bus_data : BusUpdate)
    : GhostBusDetector :=
  record_speed (_store_position_history self (id bus_data) bus_data)
               (id bus_data) (speed bus_data).

End Rules.

Module Examples.
Import Detector Rules.

(** A report of bus B1 in Denver with speed [c], stamped at time [t]. *)
Definition report_at_time (c t : R) : BusUpdate :=
  {| id := "B1"; lat := 39.7392; lon := -104.9903; route_id := "R1";
     speed := Some c; timestamp := t; bearing := None; trip_id := None |}.

(** The same report stamped at time 1000. *)
Definition report_at (c : R) : BusUpdate := report_at_time c 1000.


(** The detector after [detect_anomalies] has run on the reports in turn,
    from a new detector. *)
Definition after (reports : list BusUpdate) : GhostBusDetector :=
  foldl detector_after init reports.



End Examples.

(** ** Notions of the further properties *)

Module Notions.
Import Detector Rules.

(** The detectors that a run of the program can hold: a new detector, and
    the detector that [detect_anomalies] leaves from such a detector, for any
    clock reading and report. *)
Inductive reachable : GhostBusDetector -> Prop :=
  | reachable_init : reachable init
  | reachable_step self current_time bus_data self' result :
      reachable self ->
      detect_anomalies self current_time bus_data = Some (self', result) ->
      reachable self'.

(** The speed window of a vehicle; empty for a vehicle never seen. *)
Definition speeds (self : GhostBusDetector) (bus_id : string) : list R :=
  default [] (speed_history self !! bus_id).

(** What every reachable detector satisfies. *)
Definition well_formed (self : GhostBusDetector) : Prop :=
  forall bus_id,
    (length (window self bus_id) <= 60)%nat
    /\ (length (speeds self bus_id) <= length (window self bus_id))%nat
    /\ position_history self !! bus_id <> Some []
    /\ speed_history self !! bus_id <> Some []
    /\ (is_Some (speed_history self !! bus_id) ->
        is_Some (position_history self !! bus_id)).


(** The keys of [active_buses], in order. *)
Definition keys_of (items : list (string * BusUpdate)) : list string :=
  fst <$> items.



End Notions.

(** ** A Redis server and a codec for the runs of the storage properties *)

Module StorageExamples.
Import Storage.

(** A server that holds one hash for every key, finds one position key and
    one history key, and returns two history entries; no call raises. *)
Definition one_bus_redis : Redis unit :=
  {| from_url := fun _ => Returned tt;
     ping := fun s => (Returned tt, s);
     hset := fun _ _ _ s => (Returned tt, s);
     hset_mapping := fun _ _ s => (Returned tt, s);
     expire := fun _ _ s => (Returned tt, s);
     lpush := fun _ _ s => (Returned tt, s);
     ltrim := fun _ _ _ s => (Returned tt, s);
     hgetall := fun _ s =>
       (Returned {[ "id"%string := "B1"%string;
                    "lat"%string := "39.7"%string;
                    "speed"%string := "fast"%string ]}, s);
     keys := fun _ s => (Returned ["bus:B1"; "bus:B1:history"]%string, s);
     lrange := fun _ _ _ s => (Returned ["{}"; "oops"; "{}"]%string, s);
     publish := fun _ _ s => (Returned tt, s) |}.

(** A codec that reads the one number 39.7 and the one JSON text [{}]. *)
Definition small_codec : Codec unit :=
  {| str_float := fun _ => "39.7"%string;
     float_of_str := fun s =>
       if String.eqb s "39.7" then Some 39.7 else None;
     json_dumps := fun _ => Returned "{}"%string;
     json_loads := fun s =>
       if String.eqb s "{}" then Returned tt else Raised JSONDecodeError |}.

(** A storage with a client. *)
Definition connected : RedisStorage :=
  {| redis_url := "redis://localhost:6379";
     redis := Some "redis://localhost:6379"%string |}.

End StorageExamples.

(** ** The values of the C library at the arguments of one call *)

Module FloatExamples.
Import PrimFloat.
Local Open Scope float_scope.

(** Two points that are nearly opposite on the globe:
    (63.0625, -152.5) and (-63.0624999, 27.5). *)
Definition lat1 : float := 63.0625.
Definition lon1 : float := -152.5.
Definition lat2 : float := -0x1.f87ffff29406bp+5.
Definition lon2 : float := 27.5.

(** A table of the values that the C library returns at the arguments that
    [_haversine_distance] passes for these points: the sine of half the
    differences, the cosine of the latitudes, and the squares. *)
Definition observed : GeoFloat.Libm :=
  {| GeoFloat.sin := fun x =>
       if x =? -0x1.19c415935ef58p+0 then -0x1.c872d913e6cb6p-1
       else if x =? 0x1.921fb54442d18p+0 then 1
       else x;
     GeoFloat.cos := fun x =>
       if x =? 0x1.19c415971e76bp+0 then 0x1.cfe406fad5995p-2
       else if x =? -0x1.19c4158f9f743p+0 then 0x1.cfe4071590cc1p-2
       else 1;
     GeoFloat.pow := fun x y => x * x;
     GeoFloat.asin := fun x => x |}.

End FloatExamples.

(** * Lemmas *)

Section Comparisons.

Lemma Rltb_true x y : Rltb x y = true <-> x < y.
Proof. unfold Rltb. destruct (Rlt_dec x y); split; intros; auto; discriminate. Qed.

Lemma Rltb_false x y : Rltb x y = false <-> y <= x.
Proof.
  unfold Rltb. destruct (Rlt_dec x y); split; intros; auto; try discriminate; lra.
Qed.

Lemma Rleb_true x y : Rleb x y = true <-> x <= y.
Proof. unfold Rleb. destruct (Rle_dec x y); split; intros; auto; discriminate. Qed.



End Comparisons.

(** *** Lemmas on the haversine formula *)

Section GeoFacts.
Import Geo.

Lemma sin_half_sqr (x : R) : sin (x / 2) ^ 2 = (1 - cos x) / 2.
Proof.
  replace x with (2 * (x / 2)) at 2 by lra.
  rewrite cos_2a_sin. simpl. lra.
Qed.

Lemma cos_cos_product (u v : R) :
  cos u * cos v = (cos (v - u) + cos (u + v)) / 2.
Proof. rewrite cos_minus, cos_plus. lra. Qed.

Lemma sin_sqr_bound (x : R) : 0 <= sin x ^ 2 <= 1.
Proof.
  pose proof (SIN_bound x) as [Hl Hu]. simpl. nra.
Qed.

(** [a] is a convex combination of two numbers of [[0, 1]]. *)
Lemma haversine_a_bound (lat1 lon1 lat2 lon2 : R) :
  0 <= haversine_a lat1 lon1 lat2 lon2 <= 1.
Proof.
  unfold haversine_a; cbv zeta.
  set (s := sin (radians (lon2 - lon1) / 2) ^ 2).
  assert (Hs : 0 <= s <= 1) by apply sin_sqr_bound.
  rewrite sin_half_sqr, cos_cos_product.
  replace (radians lat2 - radians lat1) with (radians (lat2 - lat1))
    by (unfold radians; lra).
  pose proof (COS_bound (radians (lat2 - lat1))) as [Hd1 Hd2].
  pose proof (COS_bound (radians lat1 + radians lat2)) as [Hp1 Hp2].
  split; nra.
Qed.

Lemma haversine_a_sym (lat1 lon1 lat2 lon2 : R) :
  haversine_a lat1 lon1 lat2 lon2 = haversine_a lat2 lon2 lat1 lon1.
Proof.
  unfold haversine_a; cbv zeta.
  rewrite !sin_half_sqr.
  replace (radians (lat2 - lat1)) with (- radians (lat1 - lat2))
    by (unfold radians; lra).
  replace (radians (lon2 - lon1)) with (- radians (lon1 - lon2))
    by (unfold radians; lra).
  rewrite !cos_neg. lra.
Qed.

Lemma haversine_a_same (lat lon : R) : haversine_a lat lon lat lon = 0.
Proof.
  unfold haversine_a, radians; cbv zeta.
  replace ((lat - lat) * (PI / 180) / 2) with 0 by lra.
  replace ((lon - lon) * (PI / 180) / 2) with 0 by lra.
  rewrite sin_0. simpl. lra.
Qed.

Lemma haversine_distance_value (lat1 lon1 lat2 lon2 : R) :
  _haversine_distance lat1 lon1 lat2 lon2
  = Some (haversine_value lat1 lon1 lat2 lon2).
Proof.
  unfold _haversine_distance, haversine_value, math_sqrt, math_asin.
  pose proof (haversine_a_bound lat1 lon1 lat2 lon2) as [Ha0 Ha1].
  set (a := haversine_a lat1 lon1 lat2 lon2) in *.
  assert (Hlt : Rltb a 0 = false) by (apply Rltb_false; lra).
  rewrite Hlt; simpl.
  assert (Hs0 : 0 <= sqrt a) by apply sqrt_pos.
  assert (Hs1 : sqrt a <= 1).
  { rewrite <- sqrt_1. apply sqrt_le_1_alt. exact Ha1. }
  assert (H1 : Rleb (-1) (sqrt a) = true) by (apply Rleb_true; lra).
  assert (H2 : Rleb (sqrt a) 1 = true) by (apply Rleb_true; lra).
  rewrite H1, H2. reflexivity.
Qed.

Lemma haversine_value_same (lat lon : R) : haversine_value lat lon lat lon = 0.
Proof.
  unfold haversine_value. rewrite haversine_a_same, sqrt_0, asin_0. lra.
Qed.

End GeoFacts.

(** ** The history windows *)

Section Windows.
Import Detector.
Context {A : Type}.
Implicit Types (l xs : list A) (x : A) (n : nat).

Lemma last_n_length n l : length (last_n n l) = Nat.min n (length l).
Proof. unfold last_n. rewrite length_drop. lia. Qed.

Lemma last_n_short n l : (length l <= n)%nat -> last_n n l = l.
Proof.
  intros H. unfold last_n.
  replace (length l - n)%nat with 0%nat by lia. reflexivity.
Qed.

Lemma last_n_nil n : last_n n (@nil A) = [].
Proof. reflexivity. Qed.

(** Trimming early does not change what is kept after later insertions. *)
Lemma last_n_app_absorb n l xs :
  last_n n (last_n n l ++ xs) = last_n n (l ++ xs).
Proof.
  destruct (Nat.le_gt_cases (length l) n) as [Hle | Hgt].
  - rewrite (last_n_short n l Hle). reflexivity.
  - unfold last_n at 1 3.
    rewrite !length_app, last_n_length.
    replace (Nat.min n (length l)) with n by lia.
    rewrite <- (take_drop (length l - n) l) at 3.
    rewrite <- app_assoc.
    rewrite (drop_app_ge (take (length l - n) l))
      by (rewrite length_take; lia).
    rewrite length_take.
    unfold last_n.
    f_equal. lia.
Qed.

Lemma append_trim_last_n l x :
  append_trim l x = last_n max_history_length (l ++ [x]).
Proof.
  unfold append_trim; cbv zeta.
  destruct (Nat.ltb_spec max_history_length (length (l ++ [x]))) as [H | H].
  - reflexivity.
  - symmetry. apply last_n_short. exact H.
Qed.

Lemma append_trim_length l x :
  length (append_trim l x)
  = Nat.min max_history_length (S (length l)).
Proof.
  rewrite append_trim_last_n, last_n_length, length_app.
  simpl length. lia.
Qed.

(** Inserting [xs] one by one, trimming after each insertion. *)
Lemma foldl_append_trim l xs :
  xs <> [] ->
  foldl append_trim l xs = last_n max_history_length (l ++ xs).
Proof.
  revert l. induction xs as [| x xs IH]; intros l Hne; [done |].
  simpl. destruct xs as [| y ys].
  - simpl. apply append_trim_last_n.
  - rewrite IH by done.
    rewrite append_trim_last_n, last_n_app_absorb.
    rewrite <- app_assoc. reflexivity.
Qed.

End Windows.

Section DetectorFacts.
Import Detector Rules.

Lemma path_distance_step (acc : R) (p q : position_entry)
    (rest : list position_entry) :
  path_distance acc (p :: q :: rest)
  = (distance <-
       Geo._haversine_distance (e_lat p) (e_lon p) (e_lat q) (e_lon q);;
     path_distance (acc + distance) (q :: rest)).
Proof. reflexivity. Qed.

Lemma cumulative_distance_step (p q : position_entry)
    (rest : list position_entry) :
  cumulative_distance (p :: q :: rest)
  = Geo.haversine_value (e_lat p) (e_lon p) (e_lat q) (e_lon q)
    + cumulative_distance (q :: rest).
Proof. reflexivity. Qed.

Lemma path_distance_value (acc : R) (samples : list position_entry) :
  path_distance acc samples = Some (acc + cumulative_distance samples).
Proof.
  revert acc. induction samples as [| p rest IH]; intros acc.
  - simpl. f_equal. lra.
  - destruct rest as [| q rest'].
    + simpl. f_equal. lra.
    + rewrite path_distance_step, cumulative_distance_step.
      rewrite haversine_distance_value. cbn [raise_bind].
      rewrite IH. f_equal. lra.
Qed.

Lemma head_last_some {A : Type} (l : list A) :
  (1 <= length l)%nat -> exists o n, head l = Some o /\ last l = Some n.
Proof.
  intros H. destruct l as [| x l]; [simpl in H; lia |].
  exists x. destruct (last (x :: l)) as [n |] eqn:E.
  - eauto.
  - apply last_None in E. discriminate.
Qed.

Lemma last_n_5_length (history : list position_entry) :
  (3 <= length history)%nat -> (3 <= length (last_n 5 history))%nat.
Proof. intros H. rewrite last_n_length. lia. Qed.

(** The stationary rule never raises, and decides [stationary_condition]. *)
Lemma is_stationary_value (self : GhostBusDetector) (bus_id : string)
    (bus_data : BusUpdate) :
  exists b : bool,
    _is_stationary_at_non_stop self bus_id bus_data = Some b
    /\ (b = true <->
        exists history, position_history self !! bus_id = Some history
                        /\ stationary_condition history).
Proof.
  unfold _is_stationary_at_non_stop.
  destruct (position_history self !! bus_id) as [history |] eqn:Eh.
  2:{ exists false. split; [done |]. split; [done |]. intros (h & Hh & _). done. }
  destruct (Nat.ltb_spec (length history) 3) as [Hlt | Hge].
  { exists false. split; [done |]. split; [done |].
    intros (h & Hh & Hc & _). simplify_eq. lia. }
  cbv zeta.
  pose proof (last_n_5_length history Hge) as Hrec.
  destruct (Nat.ltb_spec (length (last_n 5 history)) 3) as [Hlt | _]; [lia |].
  rewrite path_distance_value. cbn [raise_bind].
  destruct (head_last_some (last_n 5 history)) as (o & n & Ho & Hn); [lia |].
  rewrite Hn, Ho. cbn [raise_bind].
  assert (Hspan : time_span (last_n 5 history) = e_timestamp n - e_timestamp o).
  { unfold time_span. rewrite Ho, Hn. reflexivity. }
  rewrite Rplus_0_l.
  destruct (Rltb (cumulative_distance (last_n 5 history)) 20) eqn:Ed;
    destruct (Rltb stationary_threshold (e_timestamp n - e_timestamp o)) eqn:Et;
    cbn [andb].
  - exists true. split; [done |]. split; [| done]. intros _.
    exists history. split; [done |].
    apply Rltb_true in Ed, Et. unfold stationary_threshold in Et.
    unfold stationary_condition. rewrite Hspan. repeat split; [lia | lra | lra].
  - exists false. split; [done |]. split; [done |].
    intros (h & Hh & _ & _ & Hc). simplify_eq.
    apply Rltb_false in Et. unfold stationary_threshold in Et.
    rewrite Hspan in Hc. lra.
  - exists false. split; [done |]. split; [done |].
    intros (h & Hh & _ & Hc & _). simplify_eq.
    apply Rltb_false in Ed. lra.
  - exists false. split; [done |]. split; [done |].
    intros (h & Hh & _ & Hc & _). simplify_eq.
    apply Rltb_false in Ed. lra.
Qed.

Lemma mean_some (data : list R) :
  (1 <= length data)%nat -> mean data = Some (mean_value data).
Proof. destruct data; simpl; [lia | reflexivity]. Qed.



(** The speed rule never raises; it records the speed and decides the spike
    and drop conditions, the spike first. *)
Lemma detect_speed_anomaly_value (self : GhostBusDetector) (bus_id : string)
    (current_speed : option R) :
  exists tag : option string,
    _detect_speed_anomaly self bus_id current_speed
    = Some (record_speed self bus_id current_speed, tag)
    /\ (tag = None \/ tag = Some "speed_spike"%string
        \/ tag = Some "speed_drop"%string)
    /\ (tag = Some "speed_spike"%string <->
        exists c, current_speed = Some c
                  /\ spike_condition (speed_window self bus_id c) c)
    /\ (tag = Some "speed_drop"%string <->
        exists c, current_speed = Some c
                  /\ ~ spike_condition (speed_window self bus_id c) c
                  /\ drop_condition (speed_window self bus_id c) c).
Proof.
  unfold _detect_speed_anomaly, record_speed.
  destruct current_speed as [c |].
  2:{ exists None. split; [done |]. split; [auto |].
      split; (split; [done | intros (c & Hc & _); done]). }
  cbv zeta. fold (speed_window self bus_id c).
  set (w := speed_window self bus_id c).
  destruct (Nat.ltb_spec (length w) 5) as [Hlt | Hge].
  { exists None. split; [done |]. split; [auto |].
    split; (split; [done |]).
    - intros (c' & Hc & Hl & _). simplify_eq. fold w in Hl. lia.
    - intros (c' & Hc & _ & Hl & _). simplify_eq. fold w in Hl. lia. }
  rewrite mean_some by lia. cbn [raise_bind].
  destruct (Rltb 0 (mean_value w)) eqn:E0;
    destruct (Rltb (mean_value w * 3) c) eqn:E3; cbn [andb];
    try (apply Rltb_true in E0); try (apply Rltb_false in E0);
    try (apply Rltb_true in E3); try (apply Rltb_false in E3).
  { exists (Some "speed_spike"%string). split; [done |]. split; [auto |]. split.
    - split; [| done]. intros _. exists c. split; [done |].
      unfold spike_condition. fold w. repeat split; [lia | lra | lra].
    - split; [done |]. intros (c' & Hc & Hn & _). simplify_eq. fold w in Hn.
      exfalso. apply Hn. unfold spike_condition. repeat split; [lia | lra | lra]. }
  all: assert (Hns : ~ spike_condition w c)
         by (unfold spike_condition; intros (_ & H1 & H2); lra).
  all: destruct (Rltb 10 (mean_value w)) eqn:E10;
       destruct (Rltb c (mean_value w * 0.3)) eqn:E03; cbn [andb];
       try (apply Rltb_true in E10); try (apply Rltb_false in E10);
       try (apply Rltb_true in E03); try (apply Rltb_false in E03).
  all: first
    [ exists (Some "speed_drop"%string); split; [done |]; split; [auto |]; split;
      [ split; [done |]; intros (c' & Hc & Hs); simplify_eq; done
      | split; [| done]; intros _; exists c; split; [done |]; split; [done |];
        unfold drop_condition; fold w; repeat split; [lia | lra | lra] ]
    | exists None; split; [done |]; split; [auto |]; split;
      [ split; [done |]; intros (c' & Hc & Hs); simplify_eq; done
      | split; [done |]; intros (c' & Hc & _ & _ & H1 & H2); simplify_eq;
        fold w in H1, H2; lra ] ].
Qed.

End DetectorFacts.

Section Evaluation.
Import Detector Rules.



Lemma store_lookup_same (self : GhostBusDetector) (bus_data : BusUpdate) :
  position_history (_store_position_history self (id bus_data) bus_data)
    !! id bus_data
  = Some (window_after self bus_data).
Proof. unfold _store_position_history. simpl. apply lookup_insert_eq. Qed.

(** [detect_anomalies] always returns; its tags are those of the four rules,
    in the order of evaluation. *)
Lemma detect_anomalies_value (self : GhostBusDetector) (current_time : R)
    (bus_data : BusUpdate) :
  exists (stationary : bool) (tag : option string),
    (stationary = true <-> stationary_condition (window_after self bus_data))
    /\ (tag = None \/ tag = Some "speed_spike"%string
        \/ tag = Some "speed_drop"%string)
    /\ (tag = Some "speed_spike"%string <->
        exists c, speed bus_data = Some c
                  /\ spike_condition (speed_window self (id bus_data) c) c)
    /\ (tag = Some "speed_drop"%string <->
        exists c, speed bus_data = Some c
                  /\ ~ spike_condition (speed_window self (id bus_data) c) c
                  /\ drop_condition (speed_window self (id bus_data) c) c)
    /\ let tags :=
         tags_of (Rltb stale_threshold (current_time - timestamp bus_data))
                 stationary tag (_is_off_route bus_data) in
       detect_anomalies self current_time bus_data
       = Some (detector_after self bus_data,
               ((0 <? length tags)%nat, tags, _calculate_severity tags)).
Proof.
  set (self1 := _store_position_history self (id bus_data) bus_data).
  destruct (is_stationary_value self1 (id bus_data) bus_data)
    as (stationary & Hst & Hiff).
  destruct (detect_speed_anomaly_value self1 (id bus_data) (speed bus_data))
    as (tag & Hsp & Hcases & Hspike & Hdrop).
  exists stationary, tag.
  split.
  { rewrite Hiff. unfold self1. rewrite store_lookup_same. split.
    - intros (h & Hh & Hc). simplify_eq. exact Hc.
    - intros Hc. eauto. }
  split; [exact Hcases |].
  split; [exact Hspike |].
  split; [exact Hdrop |].
  cbv zeta. unfold detect_anomalies. cbv zeta.
  fold self1. rewrite Hst. cbn [raise_bind]. rewrite Hsp. cbn [raise_bind].
  unfold detector_after. fold self1.
  assert (Htags :
    (let a0 := if Rltb stale_threshold (current_time - timestamp bus_data)
               then [] ++ ["stale_data"%string] else [] in
     let a1 := if stationary then a0 ++ ["stationary_non_stop"%string] else a0 in
     let a2 := match tag with
               | Some t => if truthy t then a1 ++ [t] else a1
               | None => a1
               end in
     if _is_off_route bus_data then a2 ++ ["off_route"%string] else a2)
    = tags_of (Rltb stale_threshold (current_time - timestamp bus_data))
              stationary tag (_is_off_route bus_data)).
  { unfold tags_of.
    destruct (Rltb stale_threshold (current_time - timestamp bus_data));
      destruct stationary; destruct (_is_off_route bus_data);
      destruct Hcases as [-> | [-> | ->]]; reflexivity. }
  cbv zeta in Htags. rewrite Htags. reflexivity.
Qed.

End Evaluation.

Section TagFacts.
Import Detector Rules.








End TagFacts.

Section SeverityFacts.
Import Detector Rules.

Lemma any_in_true (s : gset string) (anomaly_types : list string) :
  any_in s anomaly_types = true <-> intersects anomaly_types s.
Proof.
  unfold any_in, intersects. rewrite existsb_exists. split.
  - intros (t & Hin & Hdec). exists t. split.
    + apply list_elem_of_In. exact Hin.
    + apply bool_decide_eq_true in Hdec. exact Hdec.
  - intros (t & Hin & Hs). exists t. split.
    + apply list_elem_of_In. exact Hin.
    + apply bool_decide_eq_true. exact Hs.
Qed.

Lemma any_in_false (s : gset string) (anomaly_types : list string) :
  any_in s anomaly_types = false <-> ~ intersects anomaly_types s.
Proof.
  rewrite <- any_in_true. destruct (any_in s anomaly_types); split; congruence.
Qed.

End SeverityFacts.

Section WindowFacts.
Import Detector Rules.

Lemma record_all_window (self : GhostBusDetector) (reports : list BusUpdate)
    (bus_id : string) :
  window (record_all self reports) bus_id
  = foldl append_trim (window self bus_id) (samples_of bus_id reports).
Proof.
  revert self. induction reports as [| r rs IH]; intros self; [reflexivity |].
  unfold record_all, samples_of in *. cbn [foldl]. rewrite IH. clear IH.
  unfold window, _store_position_history; cbn [position_history].
  destruct (decide (id r = bus_id)) as [Heq | Hne].
  - rewrite filter_cons_True by done.
    rewrite Heq, lookup_insert_eq. reflexivity.
  - rewrite filter_cons_False by done.
    rewrite lookup_insert_ne by done. reflexivity.
Qed.

Lemma foldl_append_trim_nil {A : Type} (xs : list A) :
  foldl append_trim [] xs = last_n max_history_length xs.
Proof.
  destruct xs as [| x xs]; [reflexivity |].
  rewrite foldl_append_trim by done. reflexivity.
Qed.

End WindowFacts.

Section ApiFacts.
Import Detector Rules Api.

Lemma detect_anomalies_state (det : GhostBusDetector) (current_time : R)
    (bus : BusUpdate) :
  exists result,
    detect_anomalies det current_time bus
    = Some (detector_after det bus, result).
Proof.
  destruct (detect_anomalies_value det current_time bus)
    as (stationary & tag & _ & _ & _ & _ & Hrun).
  cbv zeta in Hrun. eexists. exact Hrun.
Qed.

Lemma detector_after_positions (det : GhostBusDetector) (bus : BusUpdate) :
  position_history (detector_after det bus)
  = <[id bus := window_after det bus]> (position_history det).
Proof. unfold detector_after, record_speed. destruct (speed bus); reflexivity. Qed.

Lemma detector_after_speeds (det : GhostBusDetector) (bus : BusUpdate) :
  speed_history (detector_after det bus)
  = match speed bus with
    | None => speed_history det
    | Some c => <[id bus := speed_window det (id bus) c]> (speed_history det)
    end.
Proof. unfold detector_after, record_speed. destruct (speed bus); reflexivity. Qed.




End ApiFacts.

Section ExampleFacts.
Import Detector Rules Api Examples.




End ExampleFacts.

Section FanoutFacts.
Import Fanout.
Context {WebSocket : Type} `{EqDecision WebSocket} {Message : Type}.
Variable send_json : WebSocket -> Message -> bool.
Variable message : Message.

Let sent (c : WebSocket) : bool := send_json c message.


Lemma remove_after_prefix (prefix rest : list WebSocket) (x : WebSocket) :
  x ∉ prefix -> remove x (prefix ++ x :: rest) = Some (prefix ++ rest).
Proof.
  induction prefix as [| y prefix IH]; intros Hnot.
  - simpl. rewrite decide_True by done. reflexivity.
  - apply not_elem_of_cons in Hnot as [Hne Hnot].
    simpl. rewrite decide_False by done. rewrite IH by done. reflexivity.
Qed.



End FanoutFacts.

Section StorageFacts.
Import Storage.
Context {Server Json : Type} `{Redis Server} `{Codec Json}.



End StorageFacts.

Section GeoBounds.
Import Geo.

Lemma asin_nonneg (x : R) : 0 <= x <= 1 -> 0 <= asin x.
Proof.
  intros [Hx0 Hx1].
  destruct (Rle_lt_dec 0 (asin x)) as [Hge | Hlt]; [exact Hge |].
  exfalso.
  pose proof (asin_bound x) as [Hlo _].
  pose proof PI_RGT_0 as Hpi.
  assert (Hsin : sin (asin x) < 0) by (apply sin_lt_0_var; lra).
  rewrite sin_asin in Hsin by lra. lra.
Qed.

Lemma sqrt_haversine_a_bound (lat1 lon1 lat2 lon2 : R) :
  0 <= sqrt (haversine_a lat1 lon1 lat2 lon2) <= 1.
Proof.
  pose proof (haversine_a_bound lat1 lon1 lat2 lon2) as [Ha0 Ha1].
  split; [apply sqrt_pos |].
  rewrite <- sqrt_1. apply sqrt_le_1_alt. exact Ha1.
Qed.

Lemma haversine_value_bounds (lat1 lon1 lat2 lon2 : R) :
  0 <= haversine_value lat1 lon1 lat2 lon2 <= PI * R_earth.
Proof.
  unfold haversine_value, R_earth.
  pose proof (sqrt_haversine_a_bound lat1 lon1 lat2 lon2) as Hs.
  pose proof (asin_nonneg _ Hs) as H0.
  pose proof (asin_bound (sqrt (haversine_a lat1 lon1 lat2 lon2))) as [_ H1].
  split; nra.
Qed.

End GeoBounds.

Section MoreTagFacts.
Import Detector Rules Notions.










End MoreTagFacts.

Section MoreWindowFacts.
Import Detector Rules Notions.



Lemma window_detector_after (self : GhostBusDetector) (bus_data : BusUpdate)
    (bus_id : string) :
  window (detector_after self bus_data) bus_id
  = if decide (bus_id = id bus_data)
    then append_trim (window self bus_id) (entry_of bus_data)
    else window self bus_id.
Proof.
  unfold window. rewrite detector_after_positions.
  destruct (decide (bus_id = id bus_data)) as [-> | Hne].
  - rewrite lookup_insert_eq. reflexivity.
  - rewrite lookup_insert_ne by congruence. reflexivity.
Qed.

Lemma speeds_detector_after (self : GhostBusDetector) (bus_data : BusUpdate)
    (bus_id : string) :
  speeds (detector_after self bus_data) bus_id
  = match speed bus_data with
    | Some c =>
        if decide (bus_id = id bus_data)
        then append_trim (speeds self bus_id) c
        else speeds self bus_id
    | None => speeds self bus_id
    end.
Proof.
  unfold speeds. rewrite detector_after_speeds.
  destruct (speed bus_data) as [c |]; [| reflexivity].
  destruct (decide (bus_id = id bus_data)) as [-> | Hne].
  - rewrite lookup_insert_eq. reflexivity.
  - rewrite lookup_insert_ne by congruence. reflexivity.
Qed.

Lemma detect_anomalies_step (self self' : GhostBusDetector) (current_time : R)
    (bus_data : BusUpdate) (result : bool * list string * string) :
  detect_anomalies self current_time bus_data = Some (self', result) ->
  self' = detector_after self bus_data.
Proof.
  destruct (detect_anomalies_state self current_time bus_data) as (r & Hrun).
  rewrite Hrun. intros Heq. injection Heq as <- _. reflexivity.
Qed.

Lemma append_trim_nonempty {A : Type} (l : list A) (x : A) :
  append_trim l x <> [].
Proof.
  intros Hnil. apply (f_equal length) in Hnil.
  rewrite append_trim_length in Hnil. unfold max_history_length in Hnil.
  simpl in Hnil. lia.
Qed.

Lemma well_formed_init : well_formed init.
Proof.
  intros bus_id. unfold window, speeds, init. cbn [position_history speed_history].
  rewrite !lookup_empty. cbn [default length].
  repeat split; try lia; try discriminate.
  intros [x Hx]. discriminate Hx.
Qed.

Lemma well_formed_detector_after (self : GhostBusDetector)
    (bus_data : BusUpdate) :
  well_formed self -> well_formed (detector_after self bus_data).
Proof.
  intros Hwf bus_id.
  destruct (Hwf bus_id) as (Hw & Hs & Hpn & Hsn & Hdom).
  rewrite window_detector_after, speeds_detector_after.
  rewrite detector_after_positions, detector_after_speeds.
  destruct (decide (bus_id = id bus_data)) as [-> | Hne].
  - rewrite lookup_insert_eq.
    assert (Hlen : forall {A} (l : list A) x,
              length (append_trim l x) = Nat.min 60 (S (length l)))
      by (intros; apply append_trim_length).
    rewrite Hlen.
    split; [lia |]. split.
    { destruct (speed bus_data); [rewrite Hlen |]; lia. }
    split.
    { intros Heq. injection Heq as Heq. revert Heq. apply append_trim_nonempty. }
    split.
    { destruct (speed bus_data) as [c |]; [| exact Hsn].
      rewrite lookup_insert_eq. intros Heq. injection Heq as Heq.
      revert Heq. apply append_trim_nonempty. }
    intros _. eexists. reflexivity.
  - rewrite lookup_insert_ne by congruence.
    split; [exact Hw |]. split.
    { destruct (speed bus_data); exact Hs. }
    split; [exact Hpn |].
    destruct (speed bus_data) as [c |].
    + rewrite lookup_insert_ne by congruence. split; [exact Hsn | exact Hdom].
    + split; [exact Hsn | exact Hdom].
Qed.

Lemma reachable_well_formed (self : GhostBusDetector) :
  reachable self -> well_formed self.
Proof.
  induction 1 as [| self current_time bus_data self' result _ IH Hrun].
  - apply well_formed_init.
  - apply detect_anomalies_step in Hrun as ->.
    apply well_formed_detector_after. exact IH.
Qed.



End MoreWindowFacts.

Section PollFacts.
Import Detector Rules Notions Api.





End PollFacts.

Section StatisticsFacts.
Import Detector Rules Notions.

Lemma cumulative_distance_bounds (samples : list position_entry) :
  0 <= cumulative_distance samples
  <= INR (length samples - 1) * (PI * Geo.R_earth).
Proof.
  induction samples as [| p rest IH].
  - simpl. lra.
  - destruct rest as [| q rest'].
    + simpl. lra.
    + rewrite cumulative_distance_step.
      pose proof (haversine_value_bounds (e_lat p) (e_lon p) (e_lat q)
                    (e_lon q)) as [Hd0 Hd1].
      replace (length (p :: q :: rest') - 1)%nat
        with (S (length (q :: rest') - 1)) by (simpl; lia).
      rewrite S_INR. lra.
Qed.

End StatisticsFacts.

Section DictFacts.
Import Detector Notions Api.



Lemma dict_get_none (bus_id : string) (items : list (string * BusUpdate)) :
  dict_get bus_id items = None <-> bus_id ∉ keys_of items.
Proof.
  unfold keys_of. induction items as [| [k v] rest IH]; cbn [dict_get fmap list_fmap fst].
  - split; [intros _ Hin; inversion Hin | reflexivity].
  - rewrite not_elem_of_cons. destruct (String.eqb k bus_id) eqn:Hk.
    + apply String.eqb_eq in Hk. split; [discriminate | intros [Hne _]; congruence].
    + apply String.eqb_neq in Hk. rewrite IH. split.
      * intros Hnot. split; [congruence | exact Hnot].
      * intros [_ Hnot]. exact Hnot.
Qed.


End DictFacts.

Section MoreFanoutFacts.
Import Fanout.
Context {WebSocket : Type} `{EqDecision WebSocket}.

Lemma remove_first_occurrence (x : WebSocket) (l : list WebSocket) :
  x ∈ l ->
  exists before after,
    l = before ++ x :: after
    /\ (x ∉ before)
    /\ remove x l = Some (before ++ after).
Proof.
  induction l as [| y rest IH]; intros Hin; [inversion Hin |].
  destruct (decide (x = y)) as [-> | Hne].
  - exists [], rest. split; [reflexivity |]. split.
    + intros Hx. inversion Hx.
    + simpl. rewrite decide_True by done. reflexivity.
  - apply elem_of_cons in Hin as [Heq | Hin]; [congruence |].
    destruct (IH Hin) as (before & after & -> & Hnot & Hrem).
    exists (y :: before), after. split; [reflexivity |]. split.
    + apply not_elem_of_cons. split; [exact Hne | exact Hnot].
    + cbn [remove]. rewrite decide_False by done.
      rewrite Hrem. reflexivity.
Qed.






End MoreFanoutFacts.

Section MoreStorageFacts.
Import Storage.
Context {Server Json : Type} `{Redis Server} `{Codec Json}.

Lemma not_none_all_none (d : Dict) :
  (forall kv, kv ∈ d -> kv.2 = None) -> not_none d = [].
Proof.
  unfold not_none. induction d as [| [k v] rest IH]; intros Hall; [reflexivity |].
  pose proof (Hall (k, v) (list_elem_of_here _ _)) as Hv. cbn [snd] in Hv.
  subst v. cbn [omap list_omap fst snd].
  apply IH. intros kv Hkv. apply Hall. right. exact Hkv.
Qed.

Lemma dict_get_all_none (d : Dict) (k : string) :
  (forall kv, kv ∈ d -> kv.2 = None) -> dict_get k d = None.
Proof.
  induction d as [| [k' v] rest IH]; intros Hall; [reflexivity |].
  cbn [dict_get]. destruct (String.eqb k' k).
  - exact (Hall (k', v) (list_elem_of_here _ _)).
  - apply IH. intros kv Hkv. apply Hall. right. exact Hkv.
Qed.

(** The entries of a history that parse, in order. *)
Lemma history_loop_value (history_data : list string) (history : list Json)
    (server : Server) :
  (forall entry e, entry ∈ history_data -> json_loads entry = Raised e ->
                   e = JSONDecodeError) ->
  history_loop history_data history server
  = (Returned
       (history
        ++ omap (fun entry =>
                   match json_loads entry with
                   | Returned position => Some position
                   | Raised _ => None
                   end) history_data),
     server).
Proof.
  revert history.
  induction history_data as [| entry rest IH]; intros history Honly.
  - cbn. rewrite app_nil_r. reflexivity.
  - cbn [history_loop omap list_omap].
    assert (Hrest : forall entry' e, entry' ∈ rest ->
                      json_loads entry' = Raised e -> e = JSONDecodeError)
      by (intros entry' e Hin; apply Honly; right; exact Hin).
    destruct (json_loads entry) as [position | e] eqn:Hload.
    + rewrite IH by exact Hrest. rewrite <- app_assoc. reflexivity.
    + rewrite (Honly entry e (list_elem_of_here _ _) Hload).
      apply IH. exact Hrest.
Qed.

Lemma omap_length_le {A B : Type} (f : A -> option B) (l : list A) :
  (length (omap f l) <= length l)%nat.
Proof.
  induction l as [| x rest IH]; [reflexivity |].
  cbn [omap list_omap]. destruct (f x); cbn [length]; lia.
Qed.


End MoreStorageFacts.

Section GtfsFacts.
Import Gtfs.
Context {DataFrame : Type} `{Files DataFrame}.

Lemma load_file_same_path (self self' : GTFSLoader) (filename : string)
    (required : bool) :
  gtfs_path self' = gtfs_path self ->
  _load_file self' filename required = _load_file self filename required.
Proof. unfold _load_file. intros ->. reflexivity. Qed.

Lemma load_file_optional (self : GTFSLoader) (filename : string) :
  exists df, _load_file self filename false = inr df.
Proof.
  unfold _load_file.
  destruct (exists_ (gtfs_path self) filename); cbn [negb]; [| eauto].
  destruct (read_csv (gtfs_path self) filename utf_8); eauto.
  destruct (read_csv (gtfs_path self) filename latin_1); eauto.
Qed.

Lemma load_file_required_optional (self : GTFSLoader) (filename : string)
    (df : DataFrame) :
  _load_file self filename true = inr df ->
  _load_file self filename false = inr df.
Proof.
  unfold _load_file.
  destruct (exists_ (gtfs_path self) filename); cbn [negb]; [| discriminate].
  destruct (read_csv (gtfs_path self) filename utf_8); try discriminate;
    try (intros Heq; exact Heq).
  destruct (read_csv (gtfs_path self) filename latin_1); try discriminate.
  intros Heq; exact Heq.
Qed.

End GtfsFacts.

Section CadenceFacts.
Import Detector Rules Notions.








End CadenceFacts.

(** * Properties of the specification *)

Section DetectorProperties.
Import Detector Rules.

(** In exact arithmetic the haversine distance returns a value for every pair
    of coordinates (the arguments of [math.sqrt] and [math.asin] are always in
    their domains), the distance from a point to itself is 0, and the
    distance from [a] to [b] is the distance from [b] to [a]. *)
Theorem haversine_total_zero_symmetric (lat1 lon1 lat2 lon2 : R) :
  (exists d, Geo._haversine_distance lat1 lon1 lat2 lon2 = Some d)
  /\ Geo._haversine_distance lat1 lon1 lat1 lon1 = Some 0
  /\ Geo._haversine_distance lat1 lon1 lat2 lon2
     = Geo._haversine_distance lat2 lon2 lat1 lon1.
Proof.
  split; [| split].
  - eexists. apply haversine_distance_value.
  - rewrite haversine_distance_value, haversine_value_same. reflexivity.
  - rewrite !haversine_distance_value. unfold Geo.haversine_value.
    rewrite (haversine_a_sym lat1 lon1 lat2 lon2). reflexivity.
Qed.

(** C6: the severity of a tag list is info when the list is empty; otherwise
    critical when it meets {stale_data, off_route}; otherwise warning when it
    meets {stationary_non_stop, speed_spike, speed_drop}; otherwise info.
    In particular [stale_data] alone is critical, [speed_spike] alone is
    warning, and no tag is info. *)
Theorem severity_classification (anomaly_types : list string) :
  ((anomaly_types = []
    /\ _calculate_severity anomaly_types = "info"%string)
   \/ (anomaly_types <> []
       /\ intersects anomaly_types critical_anomalies
       /\ _calculate_severity anomaly_types = "critical"%string)
   \/ (anomaly_types <> []
       /\ ~ intersects anomaly_types critical_anomalies
       /\ intersects anomaly_types warning_anomalies
       /\ _calculate_severity anomaly_types = "warning"%string)
   \/ (anomaly_types <> []
       /\ ~ intersects anomaly_types critical_anomalies
       /\ ~ intersects anomaly_types warning_anomalies
       /\ _calculate_severity anomaly_types = "info"%string))
  /\ critical_anomalies = {[ "stale_data"%string; "off_route"%string ]}
  /\ warning_anomalies
     = {[ "stationary_non_stop"%string; "speed_spike"%string;
          "speed_drop"%string ]}
  /\ _calculate_severity ["stale_data"%string] = "critical"%string
  /\ _calculate_severity ["speed_spike"%string] = "warning"%string
  /\ _calculate_severity [] = "info"%string.
Proof.
  split; [| repeat split; reflexivity].
  destruct anomaly_types as [| t ts]; [left; done | right].
  unfold _calculate_severity.
  destruct (any_in critical_anomalies (t :: ts)) eqn:Ec.
  { left. apply any_in_true in Ec. done. }
  right. apply any_in_false in Ec.
  destruct (any_in warning_anomalies (t :: ts)) eqn:Ew.
  { left. apply any_in_true in Ew. done. }
  right. apply any_in_false in Ew. done.
Qed.




(** C4: after any sequence of insertions into a new detector, the window of
    every vehicle holds the last 60 of that vehicle's samples, in order of
    insertion, and so at most 60 samples; after [60 + k] insertions for a
    vehicle the first [k] samples are gone and the 60 later ones remain.
    From any detector, the window after the insertions is the last 60 of the
    earlier window followed by the inserted samples. *)
Theorem history_window_keeps_last_60
    (reports : list BusUpdate) (bus_id : string) :
  window (record_all init reports) bus_id
  = last_n 60 (samples_of bus_id reports)
  /\ (length (window (record_all init reports) bus_id) <= 60)%nat
  /\ (forall k : nat,
        length (samples_of bus_id reports) = (60 + k)%nat ->
        window (record_all init reports) bus_id
        = drop k (samples_of bus_id reports)
        /\ length (window (record_all init reports) bus_id) = 60%nat)
  /\ (forall self : GhostBusDetector,
        samples_of bus_id reports <> [] ->
        window (record_all self reports) bus_id
        = last_n 60 (window self bus_id ++ samples_of bus_id reports)).
Proof.
  assert (Hw : window (record_all init reports) bus_id
               = last_n 60 (samples_of bus_id reports)).
  { rewrite record_all_window. unfold window, init; cbn [position_history].
    rewrite lookup_empty. cbn [default]. apply foldl_append_trim_nil. }
  split; [exact Hw |]. split; [| split].
  - rewrite Hw, last_n_length. lia.
  - intros k Hk. rewrite Hw. split.
    + unfold last_n. rewrite Hk. f_equal. lia.
    + rewrite last_n_length, Hk. lia.
  - intros self Hne. rewrite record_all_window.
    apply foldl_append_trim. exact Hne.
Qed.


End DetectorProperties.

Section SpeedProperties.
Import Detector Rules Examples.




End SpeedProperties.

Section ReadProperties.
Import Detector Rules Api Examples.



End ReadProperties.

Section FanoutProperties.
Import Fanout.
Context {WebSocket : Type} `{EqDecision WebSocket} {Message : Type}.


End FanoutProperties.

Section StorageProperties.
Import Storage.
Context {Server Json : Type} `{Redis Server} `{Codec Json}.
Context {WebSocket : Type} `{EqDecision WebSocket}.


End StorageProperties.

(** * Further properties of the code *)

Section RuleProperties.
Import Detector Rules Notions.





(** X6: in every detector that runs of [detect_anomalies] can produce from a
    new detector, each position window and each speed window has at most 60
    samples, a speed window is never longer than the position window of the
    same vehicle, no stored window is empty, and a vehicle with a speed
    window has a position window. *)
Theorem reachable_windows_bounded (self : GhostBusDetector) :
  reachable self ->
  forall bus_id,
    (length (window self bus_id) <= 60)%nat
    /\ (length (speeds self bus_id) <= length (window self bus_id))%nat
    /\ position_history self !! bus_id <> Some []
    /\ speed_history self !! bus_id <> Some []
    /\ (is_Some (speed_history self !! bus_id) ->
        is_Some (position_history self !! bus_id)).
Proof. intros Hreach. apply reachable_well_formed. exact Hreach. Qed.

(** A run of X6: the detector after the first report of bus B1. *)
Lemma reachable_windows_bounded_run :
  (length (window (Examples.after [Examples.report_at 30]) "B1") <= 60)%nat.
Proof.
  assert (Hreach : reachable (Examples.after [Examples.report_at 30])).
  { destruct (detect_anomalies_state init 1000 (Examples.report_at 30))
      as (result & Hrun).
    exact (reachable_step init 1000 (Examples.report_at 30) _ result
             reachable_init Hrun). }
  exact (proj1 (reachable_windows_bounded _ Hreach "B1"%string)).
Defined.


End RuleProperties.

Section PollingProperties.
Import Detector Rules Notions Api.



End PollingProperties.

Section StatisticsProperties.
Import Detector Rules Notions Statistics.

(** X9: whenever [get_bus_statistics] returns, its two counts are the
    lengths of the windows (0 for a bus never seen), its average speed is
    [None] exactly when no speed is recorded and otherwise the mean of the
    speed window, and its total distance is the cumulative haversine distance
    along the position window, never negative.  For a bus with at most one
    stored position it returns, no distance is computed, and the total
    distance is 0. *)
Theorem bus_statistics_of_a_return (self : GhostBusDetector) (bus_id : string) :
  (forall stats,
     get_bus_statistics self bus_id = Some stats ->
     position_history_count stats = length (window self bus_id)
     /\ speed_history_count stats = length (speeds self bus_id)
     /\ (avg_speed stats = None <-> speeds self bus_id = [])
     /\ (forall m, avg_speed stats = Some m ->
                   m = mean_value (speeds self bus_id))
     /\ total_distance stats = cumulative_distance (window self bus_id)
     /\ 0 <= total_distance stats)
  /\ ((length (window self bus_id) <= 1)%nat ->
      exists stats,
        get_bus_statistics self bus_id = Some stats
        /\ total_distance stats = 0).
Proof.
  unfold get_bus_statistics, window, speeds. cbv zeta.
  assert (Havg : exists avg,
    match speed_history self !! bus_id with
    | Some ((_ :: _) as speeds) => (m <- mean speeds;; Some (Some m))
    | _ => Some None
    end = Some avg
    /\ (avg = None <-> default [] (speed_history self !! bus_id) = [])
    /\ (forall m, avg = Some m ->
          m = mean_value (default [] (speed_history self !! bus_id)))).
  { destruct (speed_history self !! bus_id) as [[| s rest] |];
      cbn [default raise_bind mean].
    - exists None. split; [done |]. split; [done |]. discriminate.
    - eexists. split; [reflexivity |]. split; [done |].
      intros m Hm. injection Hm as <-. reflexivity.
    - exists None. split; [done |]. split; [done |]. discriminate. }
  destruct Havg as (avg & -> & Hnone & Hsome). cbn [raise_bind].
  split.
  - intros stats Hrun.
    assert (Htotal :
      match position_history self !! bus_id with
      | Some positions =>
          if (1 <? length positions)%nat then path_distance 0 positions
          else Some 0
      | None => Some 0
      end
      = Some (cumulative_distance
                (default [] (position_history self !! bus_id)))).
    { destruct (position_history self !! bus_id) as [positions |];
        cbn [default]; [| reflexivity].
      destruct (Nat.ltb_spec 1 (length positions)) as [Hlt | Hge].
      - rewrite path_distance_value, Rplus_0_l. reflexivity.
      - destruct positions as [| p [| q rest]]; [reflexivity | reflexivity |].
        simpl in Hge. lia. }
    rewrite Htotal in Hrun. cbn [raise_bind] in Hrun.
    injection Hrun as <-.
    cbn [position_history_count speed_history_count avg_speed total_distance].
    repeat split; try tauto; try apply Hnone; try exact Hsome.
    apply cumulative_distance_bounds.
  - intros Hshort.
    destruct (position_history self !! bus_id) as [positions |];
      cbn [default from_option Datatypes.id] in Hshort.
    + destruct (Nat.ltb_spec 1 (length positions)) as [Hlt | _]; [lia |].
      cbn [raise_bind]. eexists. split; reflexivity.
    + cbn [raise_bind]. eexists. split; reflexivity.
Qed.

(** A run of X9: the statistics of bus B1 after its first report. *)
Lemma bus_statistics_of_a_return_run :
  exists stats,
    get_bus_statistics (Examples.after [Examples.report_at 30]) "B1"
    = Some stats
    /\ position_history_count stats = 1%nat
    /\ total_distance stats = 0.
Proof.
  assert (Hwin : window (Examples.after [Examples.report_at 30]) "B1"
                 = [entry_of (Examples.report_at 30)]).
  { unfold Examples.after. cbn [foldl]. rewrite window_detector_after.
    reflexivity. }
  destruct (bus_statistics_of_a_return
              (Examples.after [Examples.report_at 30]) "B1")
    as [Hany Hshort].
  destruct Hshort as (stats & Hrun & Htotal).
  { rewrite Hwin. simpl. lia. }
  exists stats. split; [exact Hrun |]. split; [| exact Htotal].
  destruct (Hany stats Hrun) as (Hcount & _). rewrite Hcount, Hwin.
  reflexivity.
Defined.

End StatisticsProperties.

Section HandlerProperties.
Import Detector Rules Notions Api.






End HandlerProperties.

Section ManagerProperties.
Import Fanout Messaging.
Context {WebSocket : Type} `{EqDecision WebSocket} {Data : Type}.

(** X13: [disconnect] never raises.  A connection that is not registered
    leaves the registry as it is; otherwise its first occurrence is removed
    and every other entry stays in place.  Disconnecting a connection that
    [connect] has just added to a registry without it gives the registry
    back. *)
Theorem disconnect_removes_first_occurrence
    (active_connections : list WebSocket) (websocket : WebSocket) :
  exists registry,
    disconnect active_connections websocket = Some registry
    /\ (websocket ∉ active_connections -> registry = active_connections)
    /\ (websocket ∈ active_connections ->
        exists before after,
          active_connections = before ++ websocket :: after
          /\ (websocket ∉ before)
          /\ registry = before ++ after)
    /\ (websocket ∉ active_connections ->
        disconnect (connect active_connections websocket) websocket
        = Some active_connections).
Proof.
  unfold disconnect.
  destruct (decide (websocket ∈ active_connections)) as [Hin | Hnot].
  - destruct (remove_first_occurrence websocket active_connections Hin)
      as (before & after & Heq & Hb & Hrem).
    exists (before ++ after). split; [exact Hrem |].
    split; [tauto |]. split; [| tauto].
    intros _. exists before, after. done.
  - exists active_connections. split; [reflexivity |].
    split; [reflexivity |]. split; [tauto |].
    intros _. unfold connect.
    rewrite decide_True by (apply elem_of_app; right; left).
    rewrite remove_after_prefix by exact Hnot.
    rewrite app_nil_r. reflexivity.
Qed.


(** X15: [send_personal_message] never raises.  When the send succeeds the
    registry is unchanged; when it fails the connection is disconnected: its
    first occurrence leaves the registry, and a connection that was not
    registered leaves the registry as it is. *)
Theorem personal_message_failure_disconnects
    (send_json : WebSocket -> message (Data := Data) -> bool)
    (active_connections : list WebSocket) (m : message (Data := Data))
    (websocket : WebSocket) :
  exists registry delivered,
    send_personal_message send_json active_connections m websocket
    = Some (registry, delivered)
    /\ delivered = send_json websocket m
    /\ (send_json websocket m = true -> registry = active_connections)
    /\ (send_json websocket m = false ->
        websocket ∉ active_connections -> registry = active_connections)
    /\ (send_json websocket m = false ->
        websocket ∈ active_connections ->
        exists before after,
          active_connections = before ++ websocket :: after
          /\ (websocket ∉ before)
          /\ registry = before ++ after).
Proof.
  unfold send_personal_message.
  destruct (disconnect_removes_first_occurrence active_connections websocket)
    as (registry & Hdis & Hout & Hin & _).
  destruct (send_json websocket m) eqn:Hsend.
  - exists active_connections, true. split; [reflexivity |].
    repeat split; try reflexivity; discriminate.
  - rewrite Hdis. cbn [raise_bind].
    exists registry, false. split; [reflexivity |].
    split; [reflexivity |]. split; [discriminate |].
    split; intros _; assumption.
Qed.


End ManagerProperties.

Section ManagerRuns.
Import Fanout.


End ManagerRuns.

Section StoreProperties.
Import Storage.
Context {Server Json : Type} `{Redis Server} `{Codec Json}.

(** X17: [store_bus_position] on a dictionary without any value other than
    [None] (an empty dictionary too) returns without a call to the server. *)
Theorem store_without_values_skips_the_server
    (self : RedisStorage) (bus_id : string) (bus_data : Dict)
    (server : Server) :
  (forall kv, kv ∈ bus_data -> kv.2 = None) ->
  store_bus_position self bus_id bus_data server = (Returned tt, server).
Proof.
  intros Hall. unfold store_bus_position.
  destruct (redis self) as [url |]; [| reflexivity].
  unfold try_except, store_bus_position_body. cbv zeta.
  rewrite (not_none_all_none bus_data Hall).
  rewrite !(dict_get_all_none bus_data _ Hall).
  reflexivity.
Qed.

(** X18: with a client, [get_bus_position] reads the hash [bus:<id>].  An
    empty hash gives [None].  A hash whose numeric fields all convert gives
    the bus with those numbers, where a missing [lat], [lon] or [timestamp]
    counts as 0 and a missing or empty [speed] or [bearing] as [None].  A
    hash with a numeric field that does not convert gives [None]. *)
Theorem get_bus_position_of_a_hash
    (self : RedisStorage) (url bus_id : string)
    (data : gmap string string) (server server' : Server) :
  redis self = Some url ->
  hgetall ("bus:" ++ bus_id)%string server = (Returned data, server') ->
  (data = ∅ ->
   get_bus_position self bus_id server = (Returned None, server'))
  /\ (forall lat lon speed timestamp bearing,
        data <> ∅ ->
        float_field data "lat" = Returned lat ->
        float_field data "lon" = Returned lon ->
        optional_float_field data "speed" = Returned speed ->
        float_field data "timestamp" = Returned timestamp ->
        optional_float_field data "bearing" = Returned bearing ->
        get_bus_position self bus_id server
        = (Returned
             (Some {| sb_id := data !! "id"%string; sb_lat := lat;
                      sb_lon := lon;
                      sb_route_id := data !! "route_id"%string;
                      sb_speed := speed; sb_timestamp := timestamp;
                      sb_bearing := bearing |}),
           server'))
  /\ (forall e,
        data <> ∅ ->
        float_field data "lat" = Raised e
        \/ float_field data "lon" = Raised e
        \/ optional_float_field data "speed" = Raised e
        \/ float_field data "timestamp" = Raised e
        \/ optional_float_field data "bearing" = Raised e ->
        get_bus_position self bus_id server = (Returned None, server'))
  /\ (forall k,
        data !! k = None ->
        float_field data k = Returned 0
        /\ optional_float_field data k = Returned None)
  /\ (forall k,
        data !! k = Some ""%string ->
        optional_float_field data k = Returned None).
Proof.
  intros Hclient Hget.
  unfold get_bus_position, get_bus_position_body. rewrite Hclient.
  unfold try_except, bind, log_error, ret. rewrite Hget.
  split; [| split; [| split; [| split]]].
  - intros ->. unfold nonempty. rewrite bool_decide_eq_false_2 by tauto.
    reflexivity.
  - intros lat lon speed timestamp bearing Hne Hlat Hlon Hspeed Hts Hbearing.
    unfold nonempty. rewrite bool_decide_eq_true_2 by exact Hne.
    unfold stored_bus, bind, lift, ret.
    rewrite Hlat, Hlon, Hspeed, Hts, Hbearing. reflexivity.
  - intros e Hne Hraise.
    unfold nonempty. rewrite bool_decide_eq_true_2 by exact Hne.
    unfold stored_bus, bind, lift, ret.
    destruct (float_field data "lat") as [lat | e1]; [| reflexivity].
    destruct (float_field data "lon") as [lon | e2]; [| reflexivity].
    destruct (optional_float_field data "speed") as [speed | e3];
      [| reflexivity].
    destruct (float_field data "timestamp") as [ts | e4]; [| reflexivity].
    destruct (optional_float_field data "bearing") as [bearing | e5];
      [| reflexivity].
    destruct Hraise as [Hr | [Hr | [Hr | [Hr | Hr]]]]; discriminate Hr.
  - intros k Hk. unfold float_field, optional_float_field. rewrite Hk.
    split; reflexivity.
  - intros k Hk. unfold optional_float_field. rewrite Hk. reflexivity.
Qed.

(** X19: with a client, [get_bus_history] returns the entries of the list
    [bus:<id>:history] that parse as JSON, in their order; an entry that
    raises [JSONDecodeError] is skipped, so the result is never longer than
    the list.  An entry that raises another exception empties the result. *)
Theorem history_skips_entries_that_do_not_parse
    (self : RedisStorage) (url bus_id : string) (limit : Z)
    (history_data : list string) (server server' : Server) :
  redis self = Some url ->
  lrange ("bus:" ++ bus_id ++ ":history")%string 0 (limit - 1) server
  = (Returned history_data, server') ->
  ((forall entry e, entry ∈ history_data -> json_loads entry = Raised e ->
                    e = JSONDecodeError) ->
   get_bus_history self bus_id limit server
   = (Returned
        (omap (fun entry =>
                 match json_loads entry with
                 | Returned position => Some position
                 | Raised _ => None
                 end) history_data),
      server')
   /\ (length
         (omap (fun entry =>
                  match json_loads entry with
                  | Returned position => Some position
                  | Raised _ => None
                  end) history_data)
       <= length history_data)%nat)
  /\ (forall before bad after e,
        history_data = before ++ bad :: after ->
        (forall entry e', entry ∈ before -> json_loads entry = Raised e' ->
                          e' = JSONDecodeError) ->
        json_loads bad = Raised e ->
        e <> JSONDecodeError ->
        get_bus_history self bus_id limit server = (Returned [], server')).
Proof.
  intros Hclient Hrange.
  unfold get_bus_history, get_bus_history_body. rewrite Hclient.
  unfold try_except, bind, log_error, ret. cbv zeta. rewrite Hrange.
  split.
  - intros Honly. rewrite history_loop_value by exact Honly.
    split; [reflexivity |]. apply omap_length_le.
  - intros before bad after e -> Hbefore Hbad Hne.
    assert (Hloop : forall history,
              history_loop (before ++ bad :: after) history server'
              = (Raised e, server')).
    { clear Hrange. induction before as [| entry rest IH]; intros history.
      - cbn [List.app history_loop]. rewrite Hbad.
        destruct e; try reflexivity. congruence.
      - cbn [List.app history_loop].
        assert (Hrest : forall entry' e', entry' ∈ rest ->
                          json_loads entry' = Raised e' ->
                          e' = JSONDecodeError)
          by (intros entry' e' Hin; apply Hbefore; right; exact Hin).
        destruct (json_loads entry) as [position | e0] eqn:Hload.
        + apply IH. exact Hrest.
        + rewrite (Hbefore entry e0 (list_elem_of_here _ _) Hload).
          apply IH. exact Hrest. }
    rewrite Hloop. reflexivity.
Qed.


End StoreProperties.

Section StoreRuns.
Import Storage StorageExamples.

(** A run of X17: a dictionary with two [None] values. *)
Lemma store_without_values_skips_the_server_run :
  @store_bus_position unit unit one_bus_redis small_codec connected "B1"
    [("speed"%string, None); ("bearing"%string, None)] tt
  = (Returned tt, tt).
Proof.
  apply (@store_without_values_skips_the_server unit unit one_bus_redis
           small_codec connected "B1"
           [("speed"%string, None); ("bearing"%string, None)] tt).
  intros kv Hkv.
  apply elem_of_cons in Hkv as [-> | Hkv]; [reflexivity |].
  apply elem_of_cons in Hkv as [-> | Hkv]; [reflexivity |].
  inversion Hkv.
Defined.

(** A run of X18: the hash of the example server has a speed that does not
    convert. *)
Lemma get_bus_position_of_a_hash_run :
  @get_bus_position unit unit one_bus_redis small_codec connected "B1" tt
  = (Returned None, tt).
Proof.
  destruct (@get_bus_position_of_a_hash unit unit one_bus_redis small_codec
              connected "redis://localhost:6379" "B1"
              {[ "id"%string := "B1"%string; "lat"%string := "39.7"%string;
                 "speed"%string := "fast"%string ]} tt tt eq_refl eq_refl)
    as (_ & _ & Hbad & _).
  apply (Hbad ValueError).
  - apply (bool_decide_unpack _). vm_compute. exact I.
  - right. right. left. vm_compute. reflexivity.
Defined.

(** A run of X19: the middle entry of the example list does not parse. *)
Lemma history_skips_entries_that_do_not_parse_run :
  @get_bus_history unit unit one_bus_redis small_codec connected "B1" 10 tt
  = (Returned [tt; tt], tt).
Proof.
  destruct (@history_skips_entries_that_do_not_parse unit unit one_bus_redis
              small_codec connected "redis://localhost:6379" "B1" 10
              ["{}"; "oops"; "{}"]%string tt tt eq_refl eq_refl)
    as (Hparsed & _).
  apply Hparsed.
  intros entry e Hin Hraise.
  repeat (apply elem_of_cons in Hin as [-> | Hin];
          [vm_compute in Hraise; congruence |]).
  inversion Hin.
Defined.


End StoreRuns.

Section LoaderProperties.
Import Gtfs.
Context {DataFrame : Type} `{Files DataFrame}.

(** X21: [_load_file] never raises for an optional file: it returns the frame
    that the required load would return, and the empty frame where the
    required load raises.  A required file that does not exist raises
    [FileNotFoundError], and only then; a file that exists is read as UTF-8,
    and as Latin-1 only after a [UnicodeDecodeError]. *)
Theorem load_file_outcomes (self : GTFSLoader) (filename : string) :
  (exists df, _load_file self filename false = inr df)
  /\ (forall df, _load_file self filename true = inr df ->
                 _load_file self filename false = inr df)
  /\ (forall e, _load_file self filename true = inl e ->
                _load_file self filename false = inr empty_frame)
  /\ (_load_file self filename true = inl FileNotFoundError
      <-> exists_ (gtfs_path self) filename = false)
  /\ (forall df,
        exists_ (gtfs_path self) filename = true ->
        read_csv (gtfs_path self) filename utf_8 = Read df ->
        _load_file self filename true = inr df)
  /\ (exists_ (gtfs_path self) filename = true ->
      read_csv (gtfs_path self) filename utf_8 = ReadError ->
      _load_file self filename true = inl LoadError)
  /\ (exists_ (gtfs_path self) filename = true ->
      read_csv (gtfs_path self) filename utf_8 = UnicodeDecodeError ->
      _load_file self filename true
      = match read_csv (gtfs_path self) filename latin_1 with
        | Read df => inr df
        | _ => inl LoadError
        end).
Proof.
  split; [apply load_file_optional |].
  split; [apply load_file_required_optional |].
  unfold _load_file.
  destruct (exists_ (gtfs_path self) filename); cbn [negb].
  - destruct (read_csv (gtfs_path self) filename utf_8) as [df | |];
      [| destruct (read_csv (gtfs_path self) filename latin_1) as [df | |] |];
      repeat split; intros; try discriminate; try congruence; reflexivity.
  - repeat split; intros; try discriminate; try congruence; reflexivity.
Qed.

Ltac fields :=
  lazy beta iota zeta delta
    [fst snd gtfs_path routes stops trips stop_times shapes calendar
     calendar_dates agency fare_attributes fare_rules set_routes set_stops
     set_trips set_stop_times set_shapes set_calendar set_calendar_dates
     set_agency set_fare_attributes set_fare_rules].

(** X22: [load_all] returns [True] exactly when each of [routes.txt],
    [stops.txt], [trips.txt] and [stop_times.txt] loads; an optional file
    never makes it fail.  After [True] every attribute holds what
    [_load_file] returns for its file.  After [False] the six optional
    attributes are as before the call, while [routes] holds the new frame
    as soon as [routes.txt] loads: the assignments made before the failure
    stay. *)
Theorem load_all_outcome (self : GTFSLoader) :
  ((load_all self).2 = true
   <-> forall filename,
         filename ∈ ["routes.txt"; "stops.txt"; "trips.txt";
                     "stop_times.txt"]%string ->
         exists df, _load_file self filename true = inr df)
  /\ gtfs_path (load_all self).1 = gtfs_path self
  /\ ((load_all self).2 = true ->
      _load_file self "routes.txt" true = inr (routes (load_all self).1)
      /\ _load_file self "stops.txt" true = inr (stops (load_all self).1)
      /\ _load_file self "trips.txt" true = inr (trips (load_all self).1)
      /\ _load_file self "stop_times.txt" true
         = inr (stop_times (load_all self).1)
      /\ _load_file self "shapes.txt" false = inr (shapes (load_all self).1)
      /\ _load_file self "calendar.txt" false
         = inr (calendar (load_all self).1)
      /\ _load_file self "calendar_dates.txt" false
         = inr (calendar_dates (load_all self).1)
      /\ _load_file self "agency.txt" false = inr (agency (load_all self).1)
      /\ _load_file self "fare_attributes.txt" false
         = inr (fare_attributes (load_all self).1)
      /\ _load_file self "fare_rules.txt" false
         = inr (fare_rules (load_all self).1))
  /\ ((load_all self).2 = false ->
      shapes (load_all self).1 = shapes self
      /\ calendar (load_all self).1 = calendar self
      /\ calendar_dates (load_all self).1 = calendar_dates self
      /\ agency (load_all self).1 = agency self
      /\ fare_attributes (load_all self).1 = fare_attributes self
      /\ fare_rules (load_all self).1 = fare_rules self)
  /\ (forall df, _load_file self "routes.txt" true = inr df ->
                 routes (load_all self).1 = df).
Proof.
  remember (load_all self) as res eqn:Hres.
  unfold load_all in Hres.
  destruct (_load_file self "routes.txt" true) as [e1 | d1] eqn:H1.
  { subst res. fields.
    split; [| repeat split; try discriminate; try congruence].
    split; [discriminate |]. intros Hall.
    destruct (Hall "routes.txt"%string) as [df Hdf]; [compute_done |].
    congruence. }
  cbv zeta in Hres.
  rewrite (load_file_same_path self _ "stops.txt" true) in Hres by reflexivity.
  destruct (_load_file self "stops.txt" true) as [e2 | d2] eqn:H2.
  { subst res. fields.
    split; [| repeat split; try discriminate; try congruence].
    split; [discriminate |]. intros Hall.
    destruct (Hall "stops.txt"%string) as [df Hdf]; [compute_done |].
    congruence. }
  cbv zeta in Hres.
  rewrite (load_file_same_path self _ "trips.txt" true) in Hres by reflexivity.
  destruct (_load_file self "trips.txt" true) as [e3 | d3] eqn:H3.
  { subst res. fields.
    split; [| repeat split; try discriminate; try congruence].
    split; [discriminate |]. intros Hall.
    destruct (Hall "trips.txt"%string) as [df Hdf]; [compute_done |].
    congruence. }
  cbv zeta in Hres.
  rewrite (load_file_same_path self _ "stop_times.txt" true) in Hres by reflexivity.
  destruct (_load_file self "stop_times.txt" true) as [e4 | d4] eqn:H4.
  { subst res. fields.
    split; [| repeat split; try discriminate; try congruence].
    split; [discriminate |]. intros Hall.
    destruct (Hall "stop_times.txt"%string) as [df Hdf]; [compute_done |].
    congruence. }
  cbv zeta in Hres.
  rewrite (load_file_same_path self _ "shapes.txt" false) in Hres by reflexivity.
  destruct (load_file_optional self "shapes.txt") as [o1 Ho1].
  rewrite Ho1 in Hres. cbv zeta in Hres.
  rewrite (load_file_same_path self _ "calendar.txt" false) in Hres by reflexivity.
  destruct (load_file_optional self "calendar.txt") as [o2 Ho2].
  rewrite Ho2 in Hres. cbv zeta in Hres.
  rewrite (load_file_same_path self _ "calendar_dates.txt" false) in Hres by reflexivity.
  destruct (load_file_optional self "calendar_dates.txt") as [o3 Ho3].
  rewrite Ho3 in Hres. cbv zeta in Hres.
  rewrite (load_file_same_path self _ "agency.txt" false) in Hres by reflexivity.
  destruct (load_file_optional self "agency.txt") as [o4 Ho4].
  rewrite Ho4 in Hres. cbv zeta in Hres.
  rewrite (load_file_same_path self _ "fare_attributes.txt" false) in Hres by reflexivity.
  destruct (load_file_optional self "fare_attributes.txt") as [o5 Ho5].
  rewrite Ho5 in Hres. cbv zeta in Hres.
  rewrite (load_file_same_path self _ "fare_rules.txt" false) in Hres by reflexivity.
  destruct (load_file_optional self "fare_rules.txt") as [o6 Ho6].
  rewrite Ho6 in Hres. cbv zeta in Hres.
  subst res. fields.
  split; [| repeat split; try discriminate; try congruence].
  split; [| reflexivity]. intros _ filename Hin.
  repeat (apply elem_of_cons in Hin as [-> | Hin]; [eauto |]).
  inversion Hin.
Qed.

End LoaderProperties.

Section CadenceProperties.
Import Detector Rules Notions.





End CadenceProperties.

Section EndpointProperties.
Import Detector Rules Api Endpoint.
Context {WebSocket : Type} `{EqDecision WebSocket}.


End EndpointProperties.

Section EndpointRuns.
Import Endpoint.


End EndpointRuns.

Section FloatProperties.
Import PrimFloat.
Local Open Scope float_scope.

(** C7 (the code fails the claim): in binary64 arithmetic the haversine
    distance is not total.  For the points (63.0625, -152.5) and
    (-63.0624999, 27.5), with the values that the C library returns for the
    two sines, the two cosines and the two squares, the sum [a] is
    1.0000000000000004, its square root 1.0000000000000002 is above 1, and
    [math.asin] raises [ValueError]. *)
Theorem haversine_raises_near_antipodes (libm : GeoFloat.Libm) :
  GeoFloat.sin (-0x1.19c415935ef58p+0) = -0x1.c872d913e6cb6p-1 ->
  GeoFloat.sin 0x1.921fb54442d18p+0 = 1 ->
  GeoFloat.cos 0x1.19c415971e76bp+0 = 0x1.cfe406fad5995p-2 ->
  GeoFloat.cos (-0x1.19c4158f9f743p+0) = 0x1.cfe4071590cc1p-2 ->
  GeoFloat.pow (-0x1.c872d913e6cb6p-1) 2 = 0x1.96ecac6e7a007p-1 ->
  GeoFloat.pow 1 2 = 1 ->
  GeoFloat.haversine_a 63.0625 (-152.5) (-0x1.f87ffff29406bp+5) 27.5
  = 0x1.0000000000002p+0
  /\ GeoFloat.math_sqrt 0x1.0000000000002p+0 = Some 0x1.0000000000001p+0
  /\ GeoFloat.math_asin 0x1.0000000000001p+0 = None
  /\ GeoFloat._haversine_distance 63.0625 (-152.5) (-0x1.f87ffff29406bp+5)
       27.5
     = None.
Proof.
  intros Hsin_lat Hsin_lon Hcos1 Hcos2 Hpow_lat Hpow_lon.
  assert (Ha : GeoFloat.haversine_a 63.0625 (-152.5) (-0x1.f87ffff29406bp+5)
                 27.5
               = 0x1.0000000000002p+0).
  { unfold GeoFloat.haversine_a. cbv zeta.
    replace (GeoFloat.radians (-0x1.f87ffff29406bp+5 - 63.0625) / 2)
      with (-0x1.19c415935ef58p+0) by (vm_compute; reflexivity).
    replace (GeoFloat.radians (27.5 - -152.5) / 2)
      with 0x1.921fb54442d18p+0 by (vm_compute; reflexivity).
    replace (GeoFloat.radians 63.0625)
      with 0x1.19c415971e76bp+0 by (vm_compute; reflexivity).
    replace (GeoFloat.radians (-0x1.f87ffff29406bp+5))
      with (-0x1.19c4158f9f743p+0) by (vm_compute; reflexivity).
    rewrite Hsin_lat, Hsin_lon, Hcos1, Hcos2, Hpow_lat, Hpow_lon.
    vm_compute. reflexivity. }
  split; [exact Ha |].
  split; [vm_compute; reflexivity |].
  split; [vm_compute; reflexivity |].
  unfold GeoFloat._haversine_distance. rewrite Ha.
  vm_compute. reflexivity.
Qed.

(** A run of C7's failing call on the table of values of [FloatExamples]. *)
Lemma haversine_raises_near_antipodes_run :
  @GeoFloat._haversine_distance FloatExamples.observed FloatExamples.lat1
    FloatExamples.lon1 FloatExamples.lat2 FloatExamples.lon2
  = None.
Proof.
  refine (proj2 (proj2 (proj2
    (haversine_raises_near_antipodes FloatExamples.observed _ _ _ _ _ _))));
    vm_compute; reflexivity.
Defined.

End FloatProperties.
